(** * cozyadmin: the authentication and request-authorization boundary

    A shallow embedding of the credential hasher ([cryptoUtils]), the token
    verifier ([authUtils], in its three revisions), the request gate
    ([middleware]) and the client session controller ([AuthContext]),
    followed by the properties of the specification checked against them.

    Third-party code (Node's [crypto], the [jsonwebtoken] and [jose]
    packages, the platform's [Headers], the router and [localStorage]) is
    not part of the repository: it enters as an interface whose
    operations are parameters. *)

From stdpp Require Import gmap strings list sorting.
From Stdlib Require Import ZArith Strings.Ascii Strings.Byte.

Local Open Scope string_scope.
Local Open Scope list_scope.
Local Open Scope Z_scope.

#[local] Set Warnings "-clear-no-such-hyp".

(* ===================================================================== *)
(** * Part I: the embedding                                               *)
(* ===================================================================== *)

(** ** JavaScript values and string primitives used by the sources *)

Module Js.

(** A thrown [Error]: its message and, for errors of the [jose] package,
    its [code] property. *)
Record JsError := mkError { message : string; code : option string }.

Definition Error (msg : string) : JsError := mkError msg None.

(** The settled state of a [Promise<A>]. *)
Inductive Promise (A : Type) : Type :=
| Resolved (value : A)
| Rejected (reason : JsError).
Arguments Resolved {A} value.
Arguments Rejected {A} reason.

(** JSON values as they appear in a decoded token payload. *)
Inductive JsValue :=
| JUndefined
| JNull
| JBool (b : bool)
| JNumber (n : Z)
| JString (s : string)
| JObject.

(** [!!v] *)
Definition truthy (v : JsValue) : bool :=
  match v with
  | JUndefined | JNull => false
  | JBool b => b
  | JNumber n => negb (n =? 0)
  | JString s => negb (String.eqb s "")
  | JObject => true
  end.

(** [typeof v === 'string'] *)
Definition isString (v : JsValue) : bool :=
  match v with JString _ => true | _ => false end.

(** [v === s] for a string literal [s] *)
Definition strictEqStr (v : JsValue) (s : string) : bool :=
  match v with JString t => String.eqb t s | _ => false end.

(** [!!s] for [s : string | undefined | null] *)
Definition truthyStr (s : option string) : bool :=
  match s with
  | Some t => negb (String.eqb t "")
  | None => false
  end.

(** [a || b] where [a : string | undefined] *)
Definition orElse (a : option string) (b : string) : string :=
  if truthyStr a then default b a else b.

(** [s.startsWith(p)] *)
Definition startsWith (s p : string) : bool := String.prefix p s.

(** [s.includes(c)] for a one-character needle *)
Fixpoint includesChar (s : string) (c : ascii) : bool :=
  match s with
  | EmptyString => false
  | String d r => if Ascii.eqb d c then true else includesChar r c
  end.

(** [l.includes(s)] on an array of strings *)
Definition includes (l : list string) (s : string) : bool :=
  existsb (String.eqb s) l.

(** [s.split(sep)] for a one-character separator: always at least one
    segment, an empty segment between two adjacent separators. *)
Fixpoint split (sep : ascii) (s : string) : list string :=
  match s with
  | EmptyString => [EmptyString]
  | String c r =>
      if Ascii.eqb c sep then EmptyString :: split sep r
      else match split sep r with
           | seg :: segs => String c seg :: segs
           | [] => [String c EmptyString]
           end
  end.

End Js.

(** ** Credential hasher: [@/lib/cryptoUtils], found in
       [src/src/app/api/seed/route.ts], lines 67-138 *)

Module CryptoUtils.
Import Js.

(** The two operations of Node's [crypto] module the hasher relies on.
    [randomBytes] throws when the entropy source fails; [pbkdf2] reports
    through its callback either an error or the derived key. *)
Class NodeCrypto := {
  randomBytes : nat → JsError + list byte;
  pbkdf2 : string → string → Z → nat → string → JsError + list byte
}.

(** What Node documents of them: the requested number of bytes. *)
Class NodeCryptoSpec (C : NodeCrypto) := {
  randomBytes_length : ∀ n bytes, randomBytes n = inr bytes → length bytes = n;
  pbkdf2_length : ∀ pw salt it len dig key,
    pbkdf2 pw salt it len dig = inr key → length key = len
}.

Definition HASH_ALGORITHM : string := "sha512".
Definition KEY_LENGTH : nat := 64.
Definition ITERATIONS : Z := 100000.
Definition SALT_BYTES : nat := 16.

(** *** [Buffer] hex codec *)

Definition hexDigit (n : N) : ascii :=
  ascii_of_N (if (n <? 10)%N then 48 + n else 87 + n)%N.

(** [buf.toString('hex')]: two lowercase digits per byte. *)
Fixpoint toHex (buf : list byte) : string :=
  match buf with
  | [] => EmptyString
  | b :: r =>
      let n := Byte.to_N b in
      String (hexDigit (n / 16)) (String (hexDigit (n mod 16)) (toHex r))
  end.

Definition unhex (c : ascii) : option N :=
  let n := N_of_ascii c in
  if ((48 <=? n) && (n <=? 57))%N then Some (n - 48)%N
  else if ((97 <=? n) && (n <=? 102))%N then Some (n - 87)%N
  else if ((65 <=? n) && (n <=? 70))%N then Some (n - 55)%N
  else None.

(** [Buffer.from(s, 'hex')]: decodes pair by pair and stops, keeping
    what it has, at the first pair that is not two hex digits; a trailing
    single character is dropped. *)
Fixpoint fromHex (s : string) : list byte :=
  match s with
  | String a (String b r) =>
      match unhex a, unhex b with
      | Some hi, Some lo =>
          match Byte.of_N (16 * hi + lo) with
          | Some x => x :: fromHex r
          | None => []
          end
      | _, _ => []
      end
  | _ => []
  end.

#[global] Instance byte_eq_decision : EqDecision byte := Byte.byte_eq_dec.

(** [crypto.timingSafeEqual(a, b)]: throws a [RangeError] when the two
    buffers differ in length. *)
Definition timingSafeEqual (a b : list byte) : JsError + bool :=
  if Nat.eqb (length a) (length b)
  then inr (bool_decide (a = b))
  else inl (Error "Input buffers must have the same byte length").

Section Hasher.
Context `{C : NodeCrypto}.

Definition pbkdf2Hash (password : string) : Promise string :=
  match randomBytes SALT_BYTES with
  | inl thrown => Rejected thrown
  | inr bytes =>
      let salt := toHex bytes in
      match pbkdf2 password salt ITERATIONS KEY_LENGTH HASH_ALGORITHM with
      | inl err => Rejected err
      | inr derivedKey => Resolved (salt +:+ ":" +:+ toHex derivedKey)
      end
  end.

Definition pbkdf2Verify (storedHash providedPassword : string) : Promise bool :=
  let parts := split ":" storedHash in
  let salt := parts !! 0%nat in
  let originalKeyHex := parts !! 1%nat in
  if negb (truthyStr salt) || negb (truthyStr originalKeyHex) then
    Resolved false
  else
    match pbkdf2 providedPassword (default "" salt)
                 ITERATIONS KEY_LENGTH HASH_ALGORITHM with
    | inl err => Rejected err
    | inr derivedKey =>
        let derivedKeyHex := toHex derivedKey in
        match timingSafeEqual (fromHex derivedKeyHex)
                              (fromHex (default "" originalKeyHex)) with
        | inr isEqual => Resolved isEqual
        | inl timingError => Resolved false
        end
    end.
End Hasher.

End CryptoUtils.

(** ** Token packages: [jsonwebtoken] and [jose] *)

Module Jwt.
Import Js.

(** The claims of a decoded token, each whatever JSON the token carries
    under that name ([JUndefined] when it carries none): the three
    identity fields and the registered time claims [iat], [nbf] and
    [exp], in seconds. *)
Record Payload := mkPayload {
  userId : JsValue;
  username : JsValue;
  role : JsValue;
  iat : JsValue;
  nbf : JsValue;
  exp : JsValue
}.

(** The cryptographic core of a token package, over compact tokens:
    [decode] reads the claims of a well-formed token, [signatureOk key t]
    tells whether the signature of [t] verifies under [key], and [sign]
    produces a token. *)
Class JwtPackage := {
  decode : string → option Payload;
  signatureOk : string → string → bool;
  sign : string → Payload → string
}.

Inductive Failure :=
| Malformed
| BadSignature
| InvalidClaim (claim : string)
| NotActive
| Expired.

(** The packages themselves are not part of the repository. Their
    verification with default options, as the verifiers call it, is
    modelled after the packages' own code, at clock reading [now], in
    seconds. Both first take the token apart and check its signature. *)
Definition verifySignature `{P : JwtPackage} (token key : string) : Failure + Payload :=
  match decode token with
  | None => inl Malformed
  | Some payload =>
      if negb (signatureOk key token) then inl BadSignature else inr payload
  end.

(** Both then validate the time claims the token carries. A claim that
    is present must be a number; the token is not yet active while
    [nbf > now] and expired as soon as [exp <= now]. *)
Definition checkIssuedAt (payload : Payload) : option Failure :=
  match iat payload with
  | JUndefined | JNumber _ => None
  | _ => Some (InvalidClaim "iat")
  end.

Definition checkNotBefore (now : Z) (payload : Payload) : option Failure :=
  match nbf payload with
  | JUndefined => None
  | JNumber n => if now <? n then Some NotActive else None
  | _ => Some (InvalidClaim "nbf")
  end.

Definition checkExpiry (now : Z) (payload : Payload) : option Failure :=
  match exp payload with
  | JUndefined => None
  | JNumber e => if e <=? now then Some Expired else None
  | _ => Some (InvalidClaim "exp")
  end.

(** [jose], [jwtVerify(token, key)]: the type of [iat], then [nbf], then
    [exp]. *)
Definition joseOutcome `{P : JwtPackage} (token key : string) (now : Z)
  : Failure + Payload :=
  match verifySignature token key with
  | inl f => inl f
  | inr payload =>
      match checkIssuedAt payload with
      | Some f => inl f
      | None =>
          match checkNotBefore now payload with
          | Some f => inl f
          | None =>
              match checkExpiry now payload with
              | Some f => inl f
              | None => inr payload
              end
          end
      end
  end.

(** [jsonwebtoken], [jwt.verify(token, secret, callback)]: [nbf], then
    [exp]; [iat] is not looked at. *)
Definition jsonwebtokenOutcome `{P : JwtPackage} (token key : string) (now : Z)
  : Failure + Payload :=
  match verifySignature token key with
  | inl f => inl f
  | inr payload =>
      match checkNotBefore now payload with
      | Some f => inl f
      | None =>
          match checkExpiry now payload with
          | Some f => inl f
          | None => inr payload
          end
      end
  end.

(** [jose]: failures are thrown as errors that carry a [code]. *)
Definition joseError (f : Failure) : JsError :=
  match f with
  | Malformed => mkError "Invalid Compact JWS" (Some "ERR_JWS_INVALID")
  | BadSignature =>
      mkError "signature verification failed"
              (Some "ERR_JWS_SIGNATURE_VERIFICATION_FAILED")
  | InvalidClaim claim =>
      mkError (claim +:+ " claim must be a number")
              (Some "ERR_JWT_CLAIM_VALIDATION_FAILED")
  | NotActive =>
      mkError "nbf claim timestamp check failed"
              (Some "ERR_JWT_CLAIM_VALIDATION_FAILED")
  | Expired => mkError "exp claim timestamp check failed" (Some "ERR_JWT_EXPIRED")
  end.

Definition jwtVerify `{P : JwtPackage} (token key : string) (now : Z) : JsError + Payload :=
  match joseOutcome token key now with
  | inl f => inl (joseError f)
  | inr payload => inr payload
  end.

(** [jsonwebtoken]: failures reach the callback as [err], with a message
    only. *)
Definition jsonwebtokenError (f : Failure) : JsError :=
  match f with
  | Malformed => Error "jwt malformed"
  | BadSignature => Error "invalid signature"
  | InvalidClaim claim => Error ("invalid " +:+ claim +:+ " value")
  | NotActive => Error "jwt not active"
  | Expired => Error "jwt expired"
  end.

Definition jwt_verify `{P : JwtPackage} (token key : string) (now : Z) : JsError + Payload :=
  match jsonwebtokenOutcome token key now with
  | inl f => inl (jsonwebtokenError f)
  | inr decoded => inr decoded
  end.

End Jwt.

(** The process environment, [process.env]. *)
Abbreviation Env := (gmap string string).

(** ** Token verifier, [jsonwebtoken] revision: [src/src/lib/authUtils.ts] *)

Module AuthUtils.
Import Js Jwt.

Definition JWT_SECRET (env : Env) : string :=
  orElse (env !! "JWT_SECRET") "fallback-secret-key-replace-in-production".

Definition verifyToken `{P : JwtPackage} (env : Env) (now : Z) (token : string)
  : Promise Payload :=
  match jwt_verify token (JWT_SECRET env) now with
  | inl err => Rejected (Error "Invalid or expired token")
  | inr decoded => Resolved decoded
  end.

End AuthUtils.

(** ** Token verifier, [jose] revision with one message per failure:
       [src/unnamed/part_003] *)

Module AuthUtilsJoseCodes.
Import Js Jwt.

Definition JWT_SECRET_STRING (env : Env) : string :=
  orElse (env !! "JWT_SECRET") "fallback-secret-key-replace-in-production".

Definition JWT_SECRET (env : Env) : string := JWT_SECRET_STRING env.

(** The body of the [try] block. *)
Definition tryVerify `{P : JwtPackage} (env : Env) (now : Z) (token : string)
  : JsError + Payload :=
  match jwtVerify token (JWT_SECRET env) now with
  | inl error => inl error
  | inr payload =>
      if negb (isString (userId payload))
         || negb (isString (username payload))
         || negb (isString (role payload))
      then inl (Error "Invalid token payload structure")
      else inr payload
  end.

Definition verifyToken `{P : JwtPackage} (env : Env) (now : Z) (token : string)
  : Promise Payload :=
  match tryVerify env now token with
  | inr payload => Resolved payload
  | inl error =>
      if bool_decide (code error = Some "ERR_JWT_EXPIRED") then
        Rejected (Error "Token expired")
      else if bool_decide (code error = Some "ERR_JWS_SIGNATURE_VERIFICATION_FAILED") then
        Rejected (Error "Invalid token signature")
      else if bool_decide (code error = Some "ERR_JWS_INVALID") then
        Rejected (Error "Invalid token format")
      else
        Rejected (Error "Invalid token")
  end.

End AuthUtilsJoseCodes.

(** ** Token verifier, [jose] revision with one generic message:
       [src/unnamed/part_004] *)

Module AuthUtilsJose.
Import Js Jwt.

Definition JWT_SECRET (env : Env) : string :=
  orElse (env !! "JWT_SECRET") "fallback-secret-key-replace-in-production".

Definition secretKey (env : Env) : string := JWT_SECRET env.

(** The body of the [try] block. *)
Definition tryVerify `{P : JwtPackage} (env : Env) (now : Z) (token : string)
  : JsError + Payload :=
  match jwtVerify token (secretKey env) now with
  | inl error => inl error
  | inr payload =>
      if negb (truthy (userId payload))
         || negb (truthy (username payload))
         || negb (truthy (role payload))
      then inl (Error "Token payload missing required fields")
      else inr payload
  end.

Definition verifyToken `{P : JwtPackage} (env : Env) (now : Z) (token : string)
  : Promise Payload :=
  match tryVerify env now token with
  | inr payload => Resolved payload
  | inl error => Rejected (Error "Invalid or expired token")
  end.

End AuthUtilsJose.

(** ** Request gate: [src/src/middleware.ts] *)

Module Middleware.
Import Js Jwt.

(** The part of a [NextRequest] the gate reads: [req.nextUrl.pathname]
    and [req.headers.get('Authorization')]. *)
Record NextRequest := mkRequest {
  pathname : string;
  authorization : option string
}.

Inductive NextResponse :=
| next                                (* NextResponse.next() *)
| nextWithUserInfo (decoded : Payload)
    (* NextResponse.next({ request: { headers } }), the request headers
       extended with X-User-Info = JSON.stringify(decoded) *)
| json (message : string) (status : Z).

Definition protectedApiPaths : list string := ["/api/products"; "/api/orders"].

Definition publicPaths : list string := ["/login"; "/api/auth/login"].

(** The condition of the first [if]: the request is let through
    unexamined. *)
Definition passesUnchecked (pathname : string) : bool :=
  startsWith pathname "/_next/"
  || includesChar pathname "."
  || includes publicPaths pathname.

Definition isProtectedApi (pathname : string) : bool :=
  existsb (λ path, startsWith pathname path) protectedApiPaths.

(** [authHeader?.split(' ')[1]] *)
Definition headerToken (authHeader : option string) : option string :=
  authHeader ≫= (λ h, split " " h !! 1%nat).

(** [requestHeaders.set('X-User-Info', JSON.stringify(decoded))]. A
    header value is a byte string: [set] throws a [TypeError] when the
    serialised claims hold a code unit above 0xFF. [JSON.stringify]
    writes every claim of the token, those [Payload] does not list as
    well, so the call enters as an operation of the platform: the header
    value written, or the error thrown. *)
Class FetchHeaders := {
  setUserInfo : Payload → JsError + string
}.

Section Gate.
Context `{W : FetchHeaders}.
(** [verifyToken], imported from [@/lib/authUtils]. *)
Variable verifyToken : string → Promise Payload.

(** The [try] block of the API branch. A resolved [decoded] is an
    object, so [!decoded] is false and the role test decides; the block
    can still throw when the claims are written to the request headers. *)
Definition tryAuthorize (token : string) : JsError + NextResponse :=
  match verifyToken token with
  | Rejected error => inl error
  | Resolved decoded =>
      if negb (strictEqStr (role decoded) "admin") then
        inl (Error "Invalid token or insufficient permissions")
      else
        match setUserInfo decoded with
        | inl thrown => inl thrown
        | inr _ => inr (nextWithUserInfo decoded)
        end
  end.

Definition middleware (req : NextRequest) : NextResponse :=
  let pathname := pathname req in
  if passesUnchecked pathname then next
  else if isProtectedApi pathname then
    let authHeader := authorization req in
    let token := headerToken authHeader in
    if negb (truthyStr token) then
      json "Authentication required" 401
    else
      match tryAuthorize (default "" token) with
      | inr response => response
      | inl error => json "Invalid or expired token" 401
      end
  else next.
End Gate.

End Middleware.

(** ** Session controller: [src/src/context/AuthContext.tsx] *)

Module AuthContext.
Import Js.

(** Calls the provider makes on the browser: the storage slot and the
    router. *)
Inductive Effect :=
| GetItem (key : string)
| SetItem (key value : string)
| RemoveItem (key : string)
| Push (route : string).

(** The values one render closes over: the two [useState] cells and
    [usePathname()]. *)
Record Render := mkRender {
  token : option string;
  isLoading : bool;
  pathname : string
}.

#[global] Instance Render_eq_dec : EqDecision Render.
Proof. solve_decision. Defined.

(** The provider together with the browser state it acts on. [trace]
    lists the calls made so far, oldest first. *)
Record World := mkWorld {
  rendered : Render;
  mounted : bool;
  localStorage : gmap string string;
  trace : list Effect
}.

(** State setters called during a handler or an effect are queued and
    applied together, in order, before the next render. *)
Inductive Update :=
| setTokenState (t : option string)
| setIsLoading (b : bool).

Definition applyUpdate (r : Render) (u : Update) : Render :=
  match u with
  | setTokenState t => mkRender t (isLoading r) (pathname r)
  | setIsLoading b => mkRender (token r) b (pathname r)
  end.

Definition applyUpdates (us : list Update) (r : Render) : Render :=
  fold_left applyUpdate us r.

(** First effect, dependencies [[]]: the startup read. *)
Definition startupEffect (ls : gmap string string) : list Effect * list Update :=
  let storedToken := ls !! "adminToken" in
  ([GetItem "adminToken"],
   (if truthyStr storedToken then [setTokenState storedToken]
    else [setTokenState None]) ++ [setIsLoading false]).

(** Second effect, dependencies [[token, isLoading, pathname, router]]:
    the navigation policy. *)
Definition navigationEffect (r : Render) : list Effect :=
  if negb (isLoading r) then
    let isLoginPage := String.eqb (pathname r) "/login" in
    let publicPaths := ["/login"] in
    if negb (truthyStr (token r)) && negb (includes publicPaths (pathname r)) then
      [Push "/login"]
    else if truthyStr (token r) && isLoginPage then
      [Push "/dashboard"]
    else []
  else [].

(** After a re-render the second effect runs again when one of its
    dependencies changed. *)
Definition commit (prev next : Render) : list Effect :=
  if bool_decide (prev = next) then [] else navigationEffect next.

(** The body of [setToken], run in the closure of render [r]. *)
Definition setTokenBody (newToken : option string) (r : Render)
    (ls : gmap string string)
  : gmap string string * list Effect * list Update :=
  let '(ls', stored) :=
    if truthyStr newToken then
      (<["adminToken" := default "" newToken]> ls,
       [SetItem "adminToken" (default "" newToken)])
    else (delete "adminToken" ls, [RemoveItem "adminToken"]) in
  let routed :=
    if negb (truthyStr newToken) && negb (String.eqb (pathname r) "/login") then
      [Push "/login"]
    else if truthyStr newToken && String.eqb (pathname r) "/login" then
      [Push "/dashboard"]
    else [] in
  (ls', stored ++ routed,
   [setIsLoading true; setTokenState newToken; setIsLoading false]).

(** The initial render and the commit of the component: both effects run
    in the closure of the first render, then the queued updates are
    rendered. *)
Definition mount (w : World) : World :=
  let r := rendered w in
  let '(read, updates) := startupEffect (localStorage w) in
  let first := read ++ navigationEffect r in
  let r' := applyUpdates updates r in
  mkWorld r' true (localStorage w) (trace w ++ first ++ commit r r').

Definition setToken (newToken : option string) (w : World) : World :=
  let r := rendered w in
  let '(ls', effects, updates) := setTokenBody newToken r (localStorage w) in
  let r' := applyUpdates updates r in
  mkWorld r' (mounted w) ls' (trace w ++ effects ++ commit r r').

Definition logout (w : World) : World :=
  let r := rendered w in
  let '(ls', effects, updates) := setTokenBody None r (localStorage w) in
  let r' := applyUpdates updates r in
  mkWorld r' (mounted w) ls'
          (trace w ++ (effects ++ [Push "/login"]) ++ commit r r').

(** The router reports a new pathname. *)
Definition routeChange (route : string) (w : World) : World :=
  let r := rendered w in
  let r' := mkRender (token r) (isLoading r) route in
  mkWorld r' (mounted w) (localStorage w) (trace w ++ commit r r').

Definition isAuthenticated (w : World) : bool := truthyStr (token (rendered w)).

(** What can happen to a provider: React flushes the effects of the
    initial render before it delivers anything to a handler, so [Mount]
    comes first and comes once. *)
Inductive Event :=
| Mount
| SetToken (newToken : option string)
| Logout
| RouteChange (route : string).

Definition dispatch (e : Event) (w : World) : option World :=
  match e with
  | Mount => if mounted w then None else Some (mount w)
  | SetToken t => if mounted w then Some (setToken t w) else None
  | Logout => if mounted w then Some (logout w) else None
  | RouteChange p => if mounted w then Some (routeChange p w) else None
  end.

Fixpoint run (es : list Event) (w : World) : option World :=
  match es with
  | [] => Some w
  | e :: rest =>
      match dispatch e w with
      | Some w' => run rest w'
      | None => None
      end
  end.

(** The provider as first rendered on [route], over a given storage. *)
Definition initial (route : string) (ls : gmap string string) : World :=
  mkWorld (mkRender None true route) false ls [].

Definition reachable (w : World) : Prop :=
  ∃ route ls es, run es (initial route ls) = Some w.

(** The calls made on the way from [w] to a later [w']. *)
Definition since (w w' : World) : list Effect :=
  drop (length (trace w)) (trace w').

Definition isStorageWrite (e : Effect) : bool :=
  match e with SetItem _ _ | RemoveItem _ => true | _ => false end.

Definition isStorageRead (e : Effect) : bool :=
  match e with GetItem _ => true | _ => false end.

(** The startup invariant: before the mount nothing has happened and
    the provider is loading; after it loading is over and the trace
    opens with the one read of the stored token. *)
Definition settled (w : World) : Prop :=
  if mounted w then
    isLoading (rendered w) = false
    ∧ ∃ rest, trace w = GetItem "adminToken" :: rest
              ∧ Forall (λ e, isStorageRead e = false) rest
  else isLoading (rendered w) = true ∧ trace w = [].

End AuthContext.

(** ** Login endpoint: [POST] in [src/unnamed/part_006], lines 97-168 *)

Module Login.
Import Js Jwt CryptoUtils.

Definition JWT_SECRET (env : Env) : string :=
  orElse (env !! "JWT_SECRET") "fallback-secret-key-replace-in-production".

(** ['1h'], in seconds. *)
Definition JWT_EXPIRATION : Z := 3600.

Definition secretKey (env : Env) : string := JWT_SECRET env.

(** A document of the [users] collection: its id and the fields the
    endpoint reads. *)
Record UserDoc := mkUser {
  id : string;
  doc_username : string;
  passwordHash : option string;
  doc_role : JsValue
}.

Inductive Response :=
| message_json (message : string) (status : Z)
| token_json (token : string)               (* { token }, status 200 *)
| error_json (message error : string) (status : Z).

(** Firestore's order of document ids, that of their UTF-8 bytes. *)
Definition idOrder (a b : UserDoc) : Prop := String.leb (id a) (id b) = true.

#[global] Instance idOrder_dec : RelDecision idOrder.
Proof. intros a b. unfold idOrder. apply _. Defined.

(** [getDocs(query(usersRef, where('username', '==', username)))]. The
    collection is given as the list of its documents, in no particular
    order; a query without [orderBy] answers with the matching documents
    in ascending order of document id. *)
Definition getDocs (users : list UserDoc) (username : string) : list UserDoc :=
  merge_sort idOrder (filter (λ d, doc_username d = username) users).

(** [body] is the outcome of [req.json()], reduced to the two fields
    read from it. *)
Definition POST `{C : NodeCrypto} `{P : JwtPackage} (env : Env) (now : Z)
    (users : list UserDoc) (body : JsError + option string * option string)
  : Response :=
  let internal (error : JsError) :=
    error_json "Internal server error during login" (message error) 500 in
  match body with
  | inl error => internal error
  | inr (username, password) =>
      if negb (truthyStr username) || negb (truthyStr password) then
        message_json "Username and password are required" 400
      else
        match getDocs users (default "" username) with
        | [] => message_json "Invalid username or password" 401
        | userDoc :: _ =>
            let storedHash := passwordHash userDoc in
            if negb (truthyStr storedHash) then
              message_json "Authentication configuration error" 500
            else
              match pbkdf2Verify (default "" storedHash) (default "" password) with
              | Rejected error => internal error
              | Resolved isValidPassword =>
                  if negb isValidPassword then
                    message_json "Invalid username or password" 401
                  else if negb (strictEqStr (doc_role userDoc) "admin") then
                    message_json "Access denied. Admin privileges required." 403
                  else
                    let tokenPayload :=
                      mkPayload (JString (id userDoc))
                                (JString (doc_username userDoc))
                                (doc_role userDoc)
                                (JNumber now)
                                JUndefined
                                (JNumber (now + JWT_EXPIRATION)) in
                    token_json (sign (secretKey env) tokenPayload)
              end
        end
  end.

End Login.

(** ** Vocabulary of the specification

    Notions the specification speaks of, phrased over the embedding. *)

Module Terms.
Import Js Jwt CryptoUtils.

(** The two halves [pbkdf2Verify] destructures out of a stored hash. *)
Definition saltOf (storedHash : string) : option string :=
  split ":" storedHash !! 0%nat.

Definition keyHexOf (storedHash : string) : option string :=
  split ":" storedHash !! 1%nat.

(** No [':'] separator, or one half empty. *)
Definition lacksHalf (storedHash : string) : bool :=
  negb (truthyStr (saltOf storedHash)) || negb (truthyStr (keyHexOf storedHash)).

(** The key half does not decode to [KEY_LENGTH] bytes. *)
Definition wrongKeyLength (storedHash : string) : bool :=
  negb (Nat.eqb (length (fromHex (default "" (keyHexOf storedHash)))) KEY_LENGTH).

(** Every character is a hex digit. *)
Fixpoint isHexString (s : string) : bool :=
  match s with
  | EmptyString => true
  | String c r => bool_decide (is_Some (unhex c)) && isHexString r
  end.

(** Every character is one of [0]-[9], [a]-[f]. *)
Fixpoint isLowerHexString (s : string) : bool :=
  match s with
  | EmptyString => true
  | String c r =>
      let n := N_of_ascii c in
      (((48 <=? n) && (n <=? 57)) || ((97 <=? n) && (n <=? 102)))%N
      && isLowerHexString r
  end.

(** The clock reading [now] is before the token's [exp]: a payload that
    carries an [exp] carries a number, and one after [now]. *)
Definition unexpired (now : Z) (p : Payload) : bool :=
  match exp p with
  | JUndefined => true
  | JNumber e => now <? e
  | _ => false
  end.

(** The clock reading [now] is not before the token's [nbf]: a payload
    that carries an [nbf] carries a number, and one not after [now]. *)
Definition active (now : Z) (p : Payload) : bool :=
  match nbf p with
  | JUndefined => true
  | JNumber n => n <=? now
  | _ => false
  end.

(** A payload that carries an [iat] carries a number. *)
Definition issuedAtIsNumber (p : Payload) : bool :=
  match iat p with
  | JUndefined | JNumber _ => true
  | _ => false
  end.

(** The secret every module substitutes for a missing [JWT_SECRET]. *)
Definition fallback : string := "fallback-secret-key-replace-in-production".

(** The message the part_003 revision attaches to each outcome of the
    package: a time claim that is no number and a token not yet active
    fall under the general message, as does a payload that fails the
    structure test. *)
Definition messageFor (outcome : Failure + Payload) : string :=
  match outcome with
  | inl Expired => "Token expired"
  | inl BadSignature => "Invalid token signature"
  | inl Malformed => "Invalid token format"
  | inl (InvalidClaim _) | inl NotActive => "Invalid token"
  | inr _ => "Invalid token"
  end.

(** The outcome classes of the request gate. *)
Definition status (r : Middleware.NextResponse) : option Z :=
  match r with
  | Middleware.json _ s => Some s
  | _ => None
  end.

End Terms.

(** ** Sample instances of the third-party interfaces

    Small executable stand-ins, used to run the embedding on concrete
    requests. *)

Module Sample.
Import Js Jwt CryptoUtils.

(** A key derivation that answers with [len] copies of a checksum of
    password and salt, and a generator that answers with zeros. *)
Fixpoint checksum (s : string) : N :=
  match s with
  | EmptyString => 0%N
  | String c r => ((N_of_ascii c + 31 * checksum r) mod 256)%N
  end.

Definition checksumByte (s : string) : byte :=
  default x00 (Byte.of_N (checksum s)).

#[global] Instance sampleCrypto : NodeCrypto := {|
  randomBytes n := inr (repeat x00 n);
  pbkdf2 pw salt it len dig := inr (repeat (checksumByte (salt +:+ pw)) len)
|}.

(** A token package whose tokens read [key.name]: the signing key in
    clear, then the name of one of four fixed payloads. *)
Definition adminClaims : Payload :=
  mkPayload (JString "u1") (JString "admin") (JString "admin")
    (JNumber 1000) JUndefined (JNumber 4600).

Definition customerClaims : Payload :=
  mkPayload (JString "u2") (JString "carol") (JString "customer")
    (JNumber 1000) JUndefined (JNumber 4600).

Definition rolelessClaims : Payload :=
  mkPayload (JString "u3") (JString "dave") JUndefined
    (JNumber 1000) JUndefined (JNumber 4600).

Definition staleClaims : Payload :=
  mkPayload (JString "u1") (JString "admin") (JString "admin")
    (JNumber 0) JUndefined (JNumber 500).

(** An administrator's token that becomes valid at 2000 only. *)
Definition postdatedClaims : Payload :=
  mkPayload (JString "u1") (JString "admin") (JString "admin")
    (JNumber 1000) (JNumber 2000) (JNumber 4600).

(** An administrator whose name, held as UTF-8, opens with U+0141. *)
Definition wideClaims : Payload :=
  mkPayload (JString "u4")
    (JString (String (ascii_of_N 197) (String (ascii_of_N 129) "ucja")))
    (JString "admin")
    (JNumber 1000) JUndefined (JNumber 4600).

Definition sampleDecode (token : string) : option Payload :=
  match split "." token with
  | [_; name] =>
      if String.eqb name "admin" then Some adminClaims
      else if String.eqb name "customer" then Some customerClaims
      else if String.eqb name "roleless" then Some rolelessClaims
      else if String.eqb name "stale" then Some staleClaims
      else if String.eqb name "postdated" then Some postdatedClaims
      else if String.eqb name "wide" then Some wideClaims
      else None
  | _ => None
  end.

Definition sampleSignatureOk (key token : string) : bool :=
  match split "." token with
  | [k; _] => String.eqb k key
  | _ => false
  end.

Definition sampleSign (key : string) (p : Payload) : string :=
  key +:+ "." +:+
    (if strictEqStr (role p) "admin" then "admin"
     else if strictEqStr (role p) "customer" then "customer"
     else "roleless").

#[global] Instance samplePackage : JwtPackage := {|
  decode := sampleDecode;
  signatureOk := sampleSignatureOk;
  sign := sampleSign
|}.

(** Request headers that take the three identity fields, separated by
    commas, for the serialised claims. With strings held as UTF-8, a byte
    from 0xC4 on leads the encoding of a code point above U+00FF, which
    no header value may hold. *)
Fixpoint isByteString (s : string) : bool :=
  match s with
  | EmptyString => true
  | String c r => (N_of_ascii c <? 196)%N && isByteString r
  end.

Definition text (v : JsValue) : string :=
  match v with JString s => s | _ => "" end.

#[global] Instance sampleHeaders : Middleware.FetchHeaders := {|
  Middleware.setUserInfo p :=
    let value := text (userId p) +:+ "," +:+ text (username p)
                 +:+ "," +:+ text (role p) in
    if isByteString value then inr value
    else inl (Error "Cannot convert argument to a ByteString")
|}.

(** The seeded administrator, password ["password123"]. *)
Definition sampleUsers : list Login.UserDoc :=
  [Login.mkUser "u1" "admin"
     (Some ("00000000000000000000000000000000:" +:+ toHex (repeat x37 64)))
     (JString "admin")].

(** A session that started on the dashboard with an empty storage slot
    and was then logged out through [setToken(null)]. *)
Definition loggedOut : AuthContext.World :=
  AuthContext.setToken None
    (AuthContext.mount (AuthContext.initial "/dashboard" ∅)).

(** A session freshly mounted on the login route over a stored token. *)
Definition restored : AuthContext.World :=
  AuthContext.mount (AuthContext.initial "/login" {["adminToken" := "abc"]}).

(** Tokens signed with the fallback secret, one signed with another key
    and one that is no token. *)
Definition adminToken : string := Terms.fallback +:+ ".admin".
Definition customerToken : string := Terms.fallback +:+ ".customer".
Definition rolelessToken : string := Terms.fallback +:+ ".roleless".
Definition staleToken : string := Terms.fallback +:+ ".stale".
Definition postdatedToken : string := Terms.fallback +:+ ".postdated".
Definition wideToken : string := Terms.fallback +:+ ".wide".
Definition forgedToken : string := "guess.admin".
Definition garbledToken : string := "not-a-token".

End Sample.

(** ** Seeding endpoint: [src/src/app/api/seed/route.ts], lines 1-66 *)

Module Seed.
Import Js CryptoUtils.

Definition SEED_SECRET (env : Env) : string :=
  orElse (env !! "SEED_SECRET") "development-only-secret".

Inductive Response :=
| message_json (message : string) (status : Z)
| info_json (message details : string) (status : Z)
| error_json (message error : string) (status : Z).

(** The fields [addDoc] is called with; [createdAt] is [new Date()]. *)
Record NewUser := mkNewUser {
  new_username : string;
  new_passwordHash : string;
  new_role : string;
  createdAt : Z
}.

(** [addDoc(usersRef, fields)]: the store gains one document under an id
    of Firestore's choosing, here [autoId]. Of the written fields the
    collection view keeps those some endpoint reads. *)
Definition addDoc (autoId : string) (users : list Login.UserDoc) (fields : NewUser)
  : list Login.UserDoc :=
  users ++ [Login.mkUser autoId (new_username fields)
              (Some (new_passwordHash fields)) (JString (new_role fields))].

(** [POST]: the answer and the [users] collection afterwards. The
    Firestore calls are taken to succeed, as in the login endpoint, so
    the [catch] is reached through a rejected [pbkdf2Hash] only. *)
Definition POST `{C : NodeCrypto} (env : Env) (now : Z) (autoId : string)
    (users : list Login.UserDoc) (authHeader : option string)
  : Response * list Login.UserDoc :=
  let providedSecret := authHeader ≫= (λ h, split " " h !! 1%nat) in
  if bool_decide (env !! "NODE_ENV" ≠ Some "development")
     && bool_decide (providedSecret ≠ Some (SEED_SECRET env)) then
    (message_json "Forbidden: Seeding only allowed in development with secret" 403,
     users)
  else
    let adminUsername := "admin" in
    let adminPassword := "password123" in
    match Login.getDocs users adminUsername with
    | _ :: _ => (message_json "Admin user already exists." 200, users)
    | [] =>
        match pbkdf2Hash adminPassword with
        | Rejected error =>
            (error_json "Internal server error during seeding" (message error) 500,
             users)
        | Resolved passwordHash =>
            (message_json "Admin user 'admin' seeded successfully." 201,
             addDoc autoId users (mkNewUser adminUsername passwordHash "admin" now))
        end
    end.

Definition GET (env : Env) : Response :=
  if bool_decide (env !! "NODE_ENV" ≠ Some "development") then
    message_json "Seeding information only available in development" 403
  else
    info_json
      "POST to this route with correct Authorization header (Bearer <SEED_SECRET>) in development to seed the initial admin user."
      "Default credentials (if seeded): admin / password123. CHANGE PASSWORD AFTER SEEDING."
      200.

End Seed.

(** ** Admin layout: [src/unnamed/part_002] *)

Module AdminLayout.
Import Js.

(** What the layout returns: the spinner, [null], or the sidebar shell
    around its children. *)
Inductive View := Spinner | Nothing | Shell.

(** The context value [useAuth()] hands to the layout. *)
Definition isAuthenticated (w : AuthContext.World) : bool :=
  AuthContext.isAuthenticated w.

Definition isLoading (w : AuthContext.World) : bool :=
  AuthContext.isLoading (AuthContext.rendered w).

(** The layout's effect, dependencies [[isAuthenticated, isLoading, router]]. *)
Definition redirectEffect (w : AuthContext.World) : list AuthContext.Effect :=
  if negb (isLoading w) && negb (isAuthenticated w) then [AuthContext.Push "/login"]
  else [].

Definition render (w : AuthContext.World) : View :=
  if isLoading w then Spinner
  else if negb (isAuthenticated w) then Nothing
  else Shell.

End AdminLayout.

(** ** Further vocabulary *)

Module Notions.
Import Js Jwt.

(** The claims the login endpoint signs for a user document at clock
    reading [now]. *)
Definition issuedPayload (now : Z) (userDoc : Login.UserDoc) : Payload :=
  mkPayload (JString (Login.id userDoc))
            (JString (Login.doc_username userDoc))
            (Login.doc_role userDoc)
            (JNumber now)
            JUndefined
            (JNumber (now + Login.JWT_EXPIRATION)).

(** [doc] is, among the documents of [users] under [username], the one
    whose id comes first. *)
Definition leastMatch (users : list Login.UserDoc) (username : string)
    (doc : Login.UserDoc) : Prop :=
  doc ∈ users
  ∧ Login.doc_username doc = username
  ∧ Forall (λ d, Login.doc_username d = username → Login.idOrder doc d) users.

(** No two documents of a collection share an id. *)
Definition uniqueIds (users : list Login.UserDoc) : Prop :=
  NoDup (Login.id <$> users).

(** The stored slot and the in-memory token tell the same story: both
    hold the same non-empty token, or neither holds one. *)
Definition inAgreement (w : AuthContext.World) : Prop :=
  AuthContext.isAuthenticated w
    = truthyStr (AuthContext.localStorage w !! "adminToken")
  ∧ (AuthContext.isAuthenticated w = true →
     AuthContext.localStorage w !! "adminToken"
     = AuthContext.token (AuthContext.rendered w)).

(** Before the mount only the initial world is reachable; after it the
    slot and the token agree. *)
Definition consistent (w : AuthContext.World) : Prop :=
  if AuthContext.mounted w then inAgreement w
  else ∃ route ls, w = AuthContext.initial route ls.

(** The status of a seeding answer. *)
Definition seedStatus (r : Seed.Response) : Z :=
  match r with
  | Seed.message_json _ s | Seed.info_json _ _ s | Seed.error_json _ _ s => s
  end.

End Notions.

(* ===================================================================== *)
(** * Part II: properties                                                 *)
(* ===================================================================== *)

(** ** Strings *)

Module JsFacts.
Import Js.

Lemma split_cons_nonempty sep s : ∃ seg segs, split sep s = seg :: segs.
Proof. destruct s as [|c r]; simpl; [eauto|]. destruct (Ascii.eqb c sep); [eauto|].
  destruct (split sep r); eauto. Qed.

(** A string without the separator is a single segment. *)
Lemma split_no_sep sep s : includesChar s sep = false → split sep s = [s].
Proof.
  induction s as [|c r IH]; simpl; [done|].
  destruct (Ascii.eqb c sep); [done|]. intros Hr. by rewrite (IH Hr).
Qed.

(** The first separator ends the first segment. *)
Lemma split_app sep a b :
  includesChar a sep = false →
  split sep (a +:+ String sep b) = a :: split sep b.
Proof.
  induction a as [|c r IH]; simpl.
  - intros _. by rewrite Ascii.eqb_refl.
  - destruct (Ascii.eqb c sep); [done|]. intros Hr. by rewrite (IH Hr).
Qed.

Lemma truthyStr_Some s : truthyStr (Some s) = true ↔ s ≠ "".
Proof.
  simpl. destruct (String.eqb_spec s ""); simpl; split; congruence.
Qed.

Lemma orElse_missing (o : option string) d :
  o = None ∨ o = Some "" → orElse o d = d.
Proof. by intros [-> | ->]. Qed.

Lemma orElse_present s d : s ≠ "" → orElse (Some s) d = s.
Proof. intros Hs. unfold orElse. by rewrite (proj2 (truthyStr_Some s) Hs). Qed.

End JsFacts.

(** ** Credential hasher *)

Module HasherFacts.
Import Js CryptoUtils JsFacts.

(** Decoding undoes encoding, byte for byte. *)
Lemma fromHex_toHex buf : fromHex (toHex buf) = buf.
Proof.
  induction buf as [|b r IH]; [done|].
  cbn [toHex fromHex]. rewrite IH. by destruct b.
Qed.

(** An encoded buffer contains no colon. *)
Lemma toHex_no_colon buf : includesChar (toHex buf) ":" = false.
Proof.
  induction buf as [|b r IH]; [done|].
  cbn [toHex includesChar]. rewrite IH. by destruct b.
Qed.

Lemma toHex_nonempty buf : buf ≠ [] → toHex buf ≠ "".
Proof. by destruct buf. Qed.

Lemma timingSafeEqual_refl buf : timingSafeEqual buf buf = inr true.
Proof.
  unfold timingSafeEqual. rewrite Nat.eqb_refl. by rewrite bool_decide_eq_true_2.
Qed.

Lemma timingSafeEqual_length a b :
  length a ≠ length b → ∃ err, timingSafeEqual a b = inl err.
Proof.
  intros Hne. unfold timingSafeEqual.
  destruct (Nat.eqb_spec (length a) (length b)); [done | eauto].
Qed.

(** The stored form splits back into the salt and the key it was built
    from. *)
Lemma split_stored salt key :
  split ":" (toHex salt +:+ ":" +:+ toHex key) = [toHex salt; toHex key].
Proof.
  change (":" +:+ toHex key) with (String ":" (toHex key)).
  rewrite split_app by apply toHex_no_colon.
  by rewrite split_no_sep by apply toHex_no_colon.
Qed.

Lemma nonempty_of_length {A} (l : list A) n : length l = S n → l ≠ [].
Proof. by destruct l. Qed.

(** The sample key derivation meets the interface. *)
#[global] Instance sampleCryptoSpec : NodeCryptoSpec Sample.sampleCrypto.
Proof.
  split.
  - intros n bytes [= <-]. apply repeat_length.
  - intros pw salt it len dig key [= <-]. apply repeat_length.
Qed.

End HasherFacts.

Module HasherProofs.
Import Js CryptoUtils Terms JsFacts HasherFacts.

Section WithCrypto.
Context {C : NodeCrypto} {S : NodeCryptoSpec C}.

(** Hashing resolves exactly when the key derivation returns a key, and
    then to [hex(salt):hex(key)]. *)
Lemma pbkdf2Hash_resolved password h :
  pbkdf2Hash password = Resolved h ↔
  ∃ bytes key,
    randomBytes SALT_BYTES = inr bytes
    ∧ pbkdf2 password (toHex bytes) ITERATIONS KEY_LENGTH HASH_ALGORITHM = inr key
    ∧ h = toHex bytes +:+ ":" +:+ toHex key.
Proof.
  unfold pbkdf2Hash.
  destruct (randomBytes SALT_BYTES) as [thrown|bytes]; [naive_solver|].
  destruct (pbkdf2 _ _ _ _ _) as [err|key] eqn:Hkey; split.
  - done.
  - intros (? & ? & [= <-] & Hk & _). congruence.
  - intros [= <-]. eauto.
  - intros (? & ? & [= <-] & Hk & ->). congruence.
Qed.

(** C6. For every password [p], verifying [p] against the stored hash
    produced by hashing [p] returns true: whenever [pbkdf2Hash p]
    resolves to [h], [pbkdf2Verify h p] resolves to [true]. *)
Theorem C6_verify_accepts_own_hash (p h : string) :
  pbkdf2Hash p = Resolved h → pbkdf2Verify h p = Resolved true.
Proof.
  intros (bytes & key & Hbytes & Hkey & ->)%pbkdf2Hash_resolved.
  unfold pbkdf2Verify. rewrite split_stored.
  cbn [lookup list_lookup default from_option id].
  assert (Hsalt : truthyStr (Some (toHex bytes)) = true).
  { apply truthyStr_Some, toHex_nonempty.
    apply (nonempty_of_length _ 15). by apply randomBytes_length in Hbytes. }
  assert (Hhex : truthyStr (Some (toHex key)) = true).
  { apply truthyStr_Some, toHex_nonempty.
    apply (nonempty_of_length _ 63). by apply pbkdf2_length in Hkey. }
  rewrite Hsalt, Hhex. cbn [negb orb].
  rewrite Hkey, !fromHex_toHex. by rewrite timingSafeEqual_refl.
Qed.

(** [pbkdf2Verify] raises nothing of its own: a rejection is the error
    the key derivation reported. *)
Lemma pbkdf2Verify_rejected storedHash password err :
  pbkdf2Verify storedHash password = Rejected err →
  lacksHalf storedHash = false ∧
  pbkdf2 password (default "" (saltOf storedHash))
         ITERATIONS KEY_LENGTH HASH_ALGORITHM = inl err.
Proof.
  unfold pbkdf2Verify, lacksHalf, saltOf, keyHexOf.
  destruct (negb _ || negb _); [done|].
  destruct (pbkdf2 _ _ _ _ _) as [e|key]; [by intros [= ->]|].
  by destruct (timingSafeEqual _ _).
Qed.

(** C7, as amended. For every candidate password and every stored hash
    that has no [':'] separator, has an empty half, or whose key half
    hex-decodes to a byte length other than the derived key's,
    [pbkdf2Verify] never resolves to [true]: it resolves to [false],
    without deriving a key in the first two cases, and it rejects only
    with an error reported by the key derivation itself. *)
Theorem C7_detected_malformed_hash (storedHash providedPassword : string) :
  lacksHalf storedHash || wrongKeyLength storedHash = true →
  match pbkdf2Verify storedHash providedPassword with
  | Resolved isEqual => isEqual = false
  | Rejected err =>
      lacksHalf storedHash = false ∧
      pbkdf2 providedPassword (default "" (saltOf storedHash))
             ITERATIONS KEY_LENGTH HASH_ALGORITHM = inl err
  end.
Proof.
  intros Hbad.
  destruct (pbkdf2Verify storedHash providedPassword) as [b|err] eqn:Hv;
    [|by apply pbkdf2Verify_rejected].
  revert Hv Hbad. unfold pbkdf2Verify, lacksHalf, wrongKeyLength, saltOf, keyHexOf.
  destruct (negb _ || negb _); [by intros [= <-]|].
  destruct (pbkdf2 _ _ _ _ _) as [e|key] eqn:Hkey; [done|].
  rewrite fromHex_toHex. apply pbkdf2_length in Hkey.
  unfold timingSafeEqual. rewrite Hkey. cbn [orb].
  rewrite Nat.eqb_sym.
  destruct (Nat.eqb _ KEY_LENGTH); [done | by intros [= <-]].
Qed.

(** The structural cases are answered before any key is derived. *)
Lemma pbkdf2Verify_lacksHalf storedHash password :
  lacksHalf storedHash = true → pbkdf2Verify storedHash password = Resolved false.
Proof.
  unfold pbkdf2Verify, lacksHalf, saltOf, keyHexOf. by intros ->.
Qed.

(** The salt half is never hex-decoded: any non-empty text without a
    colon serves as salt, and the hash built on it verifies. *)
Lemma pbkdf2Verify_any_salt salt password key :
  salt ≠ "" → includesChar salt ":" = false →
  pbkdf2 password salt ITERATIONS KEY_LENGTH HASH_ALGORITHM = inr key →
  pbkdf2Verify (salt +:+ ":" +:+ toHex key) password = Resolved true.
Proof.
  intros Hne Hcolon Hkey. unfold pbkdf2Verify.
  change (":" +:+ toHex key) with (String ":" (toHex key)).
  rewrite split_app by done. rewrite split_no_sep by apply toHex_no_colon.
  cbn [lookup list_lookup default from_option id].
  rewrite (proj2 (truthyStr_Some salt) Hne).
  assert (Hhex : truthyStr (Some (toHex key)) = true).
  { apply truthyStr_Some, toHex_nonempty.
    apply (nonempty_of_length _ 63). by apply pbkdf2_length in Hkey. }
  rewrite Hhex. cbn [negb orb].
  rewrite Hkey, !fromHex_toHex. by rewrite timingSafeEqual_refl.
Qed.

End WithCrypto.

(** Witness of C6 on the sample key derivation. *)
Lemma C6_witness :
  pbkdf2Hash (C := Sample.sampleCrypto) "password123"
  = Resolved ("00000000000000000000000000000000:" +:+ toHex (repeat x37 64))
  ∧ pbkdf2Verify (C := Sample.sampleCrypto)
      ("00000000000000000000000000000000:" +:+ toHex (repeat x37 64))
      "password123" = Resolved true.
Proof.
  split; [reflexivity|].
  apply (C6_verify_accepts_own_hash (C := Sample.sampleCrypto)). reflexivity.
Defined.

(** Counterexample to C7 as stated. Two malformed stored hashes, one with
    a salt half that is not hex and one with non-hex text after the key,
    verify as [true] against the password ["pw"]. The keys are those of
    the sample derivation; [pbkdf2Verify_any_salt] shows the first for any
    derivation. *)
Lemma C7_counterexample :
  isHexString "zz" = false
  ∧ pbkdf2 (NodeCrypto := Sample.sampleCrypto) "pw" "zz"
      ITERATIONS KEY_LENGTH HASH_ALGORITHM = inr (repeat xd9 64)
  ∧ pbkdf2Verify (C := Sample.sampleCrypto)
      ("zz:" +:+ toHex (repeat xd9 64)) "pw" = Resolved true
  ∧ isHexString (toHex (repeat x99 64) +:+ "zz") = false
  ∧ pbkdf2 (NodeCrypto := Sample.sampleCrypto) "pw" "00"
      ITERATIONS KEY_LENGTH HASH_ALGORITHM = inr (repeat x99 64)
  ∧ pbkdf2Verify (C := Sample.sampleCrypto)
      ("00:" +:+ toHex (repeat x99 64) +:+ "zz") "pw" = Resolved true.
Proof. repeat split; vm_compute; reflexivity. Qed.

(** Witness of C7: a stored hash without separator. *)
Lemma C7_witness :
  lacksHalf "5f4dcc3b5aa765d61d8327deb882cf99" = true
  ∧ match pbkdf2Verify (C := Sample.sampleCrypto)
            "5f4dcc3b5aa765d61d8327deb882cf99" "password" with
    | Resolved isEqual => isEqual = false
    | Rejected err =>
        lacksHalf "5f4dcc3b5aa765d61d8327deb882cf99" = false ∧
        pbkdf2 (NodeCrypto := Sample.sampleCrypto) "password"
               (default "" (saltOf "5f4dcc3b5aa765d61d8327deb882cf99"))
               ITERATIONS KEY_LENGTH HASH_ALGORITHM = inl err
    end.
Proof.
  split; [reflexivity|].
  apply (C7_detected_malformed_hash (S := sampleCryptoSpec)). reflexivity.
Defined.

End HasherProofs.

(** ** Request gate *)

Module GateProofs.
Import Js Jwt Terms JsFacts Middleware.

(** A path under a protected prefix is neither a framework path nor on
    the public list: only a dot can exempt it from the token check. *)
Lemma protected_prefix_exemption p :
  isProtectedApi p = true → passesUnchecked p = includesChar p ".".
Proof.
  intros Hp. unfold passesUnchecked.
  assert (startsWith p "/_next/" = false ∧ includes publicPaths p = false)
    as [-> ->]; [|by rewrite orb_false_r].
  unfold isProtectedApi, protectedApiPaths in Hp.
  unfold includes, publicPaths, startsWith in *. cbn [existsb] in *.
  destruct (String.eqb_spec p "/login") as [->|_]; [by vm_compute in Hp|].
  destruct (String.eqb_spec p "/api/auth/login") as [->|_]; [by vm_compute in Hp|].
  destruct p as [|c1 [|c2 r]]; [done| |]; cbn [String.prefix orb] in *.
  - by destruct (ascii_dec "/" c1).
  - destruct (ascii_dec "/" c1) as [<-|]; [|done].
    destruct (ascii_dec "a" c2) as [<-|]; [|done].
    by destruct (ascii_dec "_" "a").
Qed.

Section WithVerifier.
Context `{W : FetchHeaders}.
Variable verifyToken : string → Promise Payload.

(** A request the gate checks and that carries no usable token. *)
Lemma middleware_no_token req :
  passesUnchecked (pathname req) = false →
  isProtectedApi (pathname req) = true →
  truthyStr (headerToken (authorization req)) = false →
  middleware verifyToken req = json "Authentication required" 401.
Proof. unfold middleware. by intros -> -> ->. Qed.

(** A request the gate checks and that carries a token. *)
Lemma middleware_token req token :
  passesUnchecked (pathname req) = false →
  isProtectedApi (pathname req) = true →
  headerToken (authorization req) = Some token → token ≠ "" →
  middleware verifyToken req =
    match tryAuthorize verifyToken token with
    | inr response => response
    | inl _ => json "Invalid or expired token" 401
    end.
Proof.
  unfold middleware. intros -> -> -> Hne.
  by rewrite (proj2 (truthyStr_Some token) Hne).
Qed.

(** A checked request whose token the verifier rejects, for whatever
    reason, gets the one answer of the [catch]. *)
Lemma middleware_rejected req token error :
  isProtectedApi (pathname req) = true →
  includesChar (pathname req) "." = false →
  headerToken (authorization req) = Some token → token ≠ "" →
  verifyToken token = Rejected error →
  middleware verifyToken req = json "Invalid or expired token" 401.
Proof.
  intros Hapi Hdot Htok Hne Hv.
  rewrite (middleware_token _ token); [|by rewrite protected_prefix_exemption|done..].
  unfold tryAuthorize. by rewrite Hv.
Qed.

(** Whatever verifier the gate is given, its rejections are 401s
    carrying one of two fixed messages. *)
Lemma middleware_rejections req :
  match middleware verifyToken req with
  | json m s =>
      s = 401 ∧ (m = "Authentication required" ∨ m = "Invalid or expired token")
  | _ => True
  end.
Proof.
  unfold middleware, tryAuthorize.
  destruct (passesUnchecked _); [done|].
  destruct (isProtectedApi _); [|done].
  destruct (negb (truthyStr _)); [naive_solver|].
  destruct (verifyToken _) as [d|e]; [|naive_solver].
  destruct (negb (strictEqStr _ _)); [naive_solver|].
  destruct (setUserInfo d); naive_solver.
Qed.

(** The gate has no Forbidden outcome. *)
Lemma middleware_never_403 req : status (middleware verifyToken req) ≠ Some 403.
Proof.
  pose proof (middleware_rejections req) as H.
  destruct (middleware verifyToken req); cbn; [done..|].
  destruct H as [-> _]. done.
Qed.

(** C1, as amended. For every request whose path begins with a
    protected-API prefix and contains no dot: without an
    [Authorization] header the gate rejects it with 401
    ["Authentication required"]; with a header whose token verifies
    but whose role is not ["admin"] the gate also rejects it with 401,
    message ["Invalid or expired token"]. No request is ever answered
    with 403. *)
Theorem C1_gate_rejects_with_401 (req : NextRequest) :
  isProtectedApi (pathname req) = true →
  includesChar (pathname req) "." = false →
  (authorization req = None →
     middleware verifyToken req = json "Authentication required" 401)
  ∧ (∀ token decoded,
       headerToken (authorization req) = Some token → token ≠ "" →
       verifyToken token = Resolved decoded →
       strictEqStr (role decoded) "admin" = false →
       middleware verifyToken req = json "Invalid or expired token" 401)
  ∧ status (middleware verifyToken req) ≠ Some 403.
Proof.
  intros Hapi Hdot.
  assert (Hchk : passesUnchecked (pathname req) = false)
    by by rewrite protected_prefix_exemption.
  split; [|split].
  - intros Hnone. apply middleware_no_token; [done..|]. by rewrite Hnone.
  - intros token decoded Htok Hne Hv Hrole.
    rewrite (middleware_token _ token) by done.
    unfold tryAuthorize. by rewrite Hv, Hrole.
  - apply middleware_never_403.
Qed.

(** A dot anywhere in the path lets the request through unexamined. *)
Lemma middleware_dot req :
  includesChar (pathname req) "." = true → middleware verifyToken req = next.
Proof.
  intros Hdot. unfold middleware, passesUnchecked. rewrite Hdot.
  by rewrite orb_true_r.
Qed.

(** C5: what the code does at the failing input. A protected API path
    with a dot in a middle segment passes the gate without any token
    check, whatever the header and the verifier. *)
Theorem C5_dotted_api_path_unchecked (authHeader : option string) :
  isProtectedApi "/api/products/v1.2/items" = true
  ∧ middleware verifyToken (mkRequest "/api/products/v1.2/items" authHeader) = next.
Proof. split; [reflexivity | by apply middleware_dot]. Qed.

(** [split(' ')[1]] of [scheme token]. *)
Lemma headerToken_two_words scheme token :
  includesChar scheme " " = false → includesChar token " " = false →
  headerToken (Some (scheme +:+ " " +:+ token)) = Some token.
Proof.
  intros Hs Ht. unfold headerToken. cbn [mbind option_bind].
  change (" " +:+ token) with (String " " token).
  rewrite split_app by done. by rewrite split_no_sep.
Qed.

Lemma headerToken_one_word word :
  includesChar word " " = false → headerToken (Some word) = None.
Proof.
  intros Hw. unfold headerToken. cbn [mbind option_bind].
  by rewrite split_no_sep.
Qed.

(** C10, as amended. For every request whose path begins with a
    protected-API prefix and contains no dot, the credential is the
    second space-separated segment of the [Authorization] header,
    whatever the first. A header [scheme token] whose token verifies
    with role ["admin"] is accepted, the claims forwarded, when the
    serialised claims can be written to the [X-User-Info] header; when
    they cannot (a character above U+00FF) the request is answered 401
    ["Invalid or expired token"]. A header of a single word is rejected
    with 401 ["Authentication required"], as if no token had been
    sent. *)
Theorem C10_second_segment_is_credential (req : NextRequest) :
  isProtectedApi (pathname req) = true →
  includesChar (pathname req) "." = false →
  (∀ scheme token decoded,
     includesChar scheme " " = false → includesChar token " " = false →
     token ≠ "" →
     authorization req = Some (scheme +:+ " " +:+ token) →
     verifyToken token = Resolved decoded →
     role decoded = JString "admin" →
     (∀ value, setUserInfo decoded = inr value →
        middleware verifyToken req = nextWithUserInfo decoded)
     ∧ (∀ thrown, setUserInfo decoded = inl thrown →
          middleware verifyToken req = json "Invalid or expired token" 401))
  ∧ (∀ word,
       includesChar word " " = false →
       authorization req = Some word →
       middleware verifyToken req = json "Authentication required" 401).
Proof.
  intros Hapi Hdot.
  assert (Hchk : passesUnchecked (pathname req) = false)
    by by rewrite protected_prefix_exemption.
  split.
  - intros scheme token decoded Hs Ht Hne Hhdr Hv Hrole.
    rewrite (middleware_token _ token); [|done..| |done].
    + unfold tryAuthorize. rewrite Hv, Hrole. cbn [strictEqStr negb].
      rewrite String.eqb_refl. cbn [negb].
      split; [intros value -> | intros thrown ->]; done.
    + rewrite Hhdr. by apply headerToken_two_words.
  - intros word Hw Hhdr. apply middleware_no_token; [done..|].
    rewrite Hhdr. by rewrite headerToken_one_word.
Qed.

End WithVerifier.

Import Sample.

(** Counterexample to C1 as stated. On a protected API path a request
    whose token verifies with role ["customer"] is answered 401, the
    status of the request without header, and not 403. *)
Lemma C1_counterexample :
  isProtectedApi "/api/products" = true
  ∧ AuthUtils.verifyToken (P := samplePackage) ∅ 1000 customerToken
    = Resolved customerClaims
  ∧ role customerClaims = JString "customer"
  ∧ middleware (AuthUtils.verifyToken (P := samplePackage) ∅ 1000)
      (mkRequest "/api/products" (Some ("Bearer " +:+ customerToken)))
    = json "Invalid or expired token" 401
  ∧ middleware (AuthUtils.verifyToken (P := samplePackage) ∅ 1000)
      (mkRequest "/api/products" None)
    = json "Authentication required" 401.
Proof. repeat split; vm_compute; reflexivity. Qed.

(** Witness of C1: the orders API, requested without header and with a
    customer's token. *)
Lemma C1_witness :
  middleware (AuthUtils.verifyToken (P := samplePackage) ∅ 1000)
    (mkRequest "/api/orders" None)
  = json "Authentication required" 401
  ∧ middleware (AuthUtils.verifyToken (P := samplePackage) ∅ 1000)
      (mkRequest "/api/orders" (Some ("Bearer " +:+ customerToken)))
    = json "Invalid or expired token" 401.
Proof.
  split.
  - apply (C1_gate_rejects_with_401 (AuthUtils.verifyToken ∅ 1000)
             (mkRequest "/api/orders" None) eq_refl eq_refl).
    reflexivity.
  - apply (C1_gate_rejects_with_401 (AuthUtils.verifyToken ∅ 1000)
             (mkRequest "/api/orders" (Some ("Bearer " +:+ customerToken)))
             eq_refl eq_refl)
      with (token := customerToken) (decoded := customerClaims);
      try reflexivity. by vm_compute.
Defined.

(** Counterexample to C10 as stated. The path [/api/products/v1.2/items]
    begins with a protected prefix, yet a request to it whose header is
    the single word [Bearer] is not rejected: it passes the gate, like
    the same request without header. *)
Lemma C10_counterexample :
  isProtectedApi "/api/products/v1.2/items" = true
  ∧ headerToken (Some "Bearer") = None
  ∧ middleware (AuthUtils.verifyToken (P := samplePackage) ∅ 1000)
      (mkRequest "/api/products/v1.2/items" (Some "Bearer"))
    = next
  ∧ middleware (AuthUtils.verifyToken (P := samplePackage) ∅ 1000)
      (mkRequest "/api/products/v1.2/items" None)
    = next.
Proof. repeat split; vm_compute; reflexivity. Qed.

(** Witness of C10: an administrator's token sent under the scheme
    [Basic], the token of an administrator whose name does not fit a
    header, and a header of one word. *)
Lemma C10_witness :
  middleware (AuthUtils.verifyToken (P := samplePackage) ∅ 1000)
    (mkRequest "/api/orders" (Some ("Basic " +:+ adminToken)))
  = nextWithUserInfo adminClaims
  ∧ middleware (AuthUtils.verifyToken (P := samplePackage) ∅ 1000)
      (mkRequest "/api/orders" (Some ("Basic " +:+ wideToken)))
    = json "Invalid or expired token" 401
  ∧ middleware (AuthUtils.verifyToken (P := samplePackage) ∅ 1000)
      (mkRequest "/api/orders" (Some "Bearer"))
    = json "Authentication required" 401.
Proof.
  assert (Hadmin : adminToken ≠ "") by (by vm_compute).
  assert (Hwide : wideToken ≠ "") by (by vm_compute).
  split; [|split].
  - refine (proj1 (proj1 (C10_second_segment_is_credential
             (AuthUtils.verifyToken ∅ 1000)
             (mkRequest "/api/orders" (Some ("Basic " +:+ adminToken)))
             eq_refl eq_refl)
           "Basic" adminToken adminClaims eq_refl eq_refl Hadmin eq_refl eq_refl eq_refl)
           "u1,admin,admin" eq_refl).
  - refine (proj2 (proj1 (C10_second_segment_is_credential
             (AuthUtils.verifyToken ∅ 1000)
             (mkRequest "/api/orders" (Some ("Basic " +:+ wideToken)))
             eq_refl eq_refl)
           "Basic" wideToken wideClaims eq_refl eq_refl Hwide eq_refl eq_refl eq_refl)
           (Error "Cannot convert argument to a ByteString") eq_refl).
  - apply (C10_second_segment_is_credential (AuthUtils.verifyToken ∅ 1000)
             (mkRequest "/api/orders" (Some "Bearer")) eq_refl eq_refl)
      with (word := "Bearer"); reflexivity.
Defined.

End GateProofs.

(** ** Token verifier *)

Module TokenProofs.
Import Js Jwt Terms JsFacts.

Lemma checkIssuedAt_passes p : checkIssuedAt p = None ↔ issuedAtIsNumber p = true.
Proof. unfold checkIssuedAt, issuedAtIsNumber. by destruct (iat p). Qed.

Lemma checkNotBefore_passes now p : checkNotBefore now p = None ↔ active now p = true.
Proof.
  unfold checkNotBefore, active. destruct (nbf p) as [| | |n| |]; try done.
  destruct (Z.ltb_spec now n), (Z.leb_spec n now); try lia; done.
Qed.

Lemma checkExpiry_passes now p : checkExpiry now p = None ↔ unexpired now p = true.
Proof.
  unfold checkExpiry, unexpired. destruct (exp p) as [| | |e| |]; try done.
  destruct (Z.leb_spec e now), (Z.ltb_spec now e); try lia; done.
Qed.

Section WithPackage.
Context `{P : JwtPackage}.

Lemma verifySignature_accepts token key p :
  verifySignature token key = inr p ↔
  decode token = Some p ∧ signatureOk key token = true.
Proof.
  unfold verifySignature.
  destruct (decode token) as [q|]; [|naive_solver].
  destruct (signatureOk key token); cbn [negb]; naive_solver.
Qed.

(** [jsonwebtoken] accepts a token exactly when it parses, its signature
    verifies under the key, and its [nbf] and [exp], where present, are
    numbers with the clock between them. *)
Lemma jsonwebtokenOutcome_accepts token key now p :
  jsonwebtokenOutcome token key now = inr p ↔
  decode token = Some p ∧ signatureOk key token = true
  ∧ active now p = true ∧ unexpired now p = true.
Proof.
  rewrite <- checkNotBefore_passes, <- checkExpiry_passes.
  rewrite (assoc and), <- verifySignature_accepts.
  unfold jsonwebtokenOutcome.
  destruct (verifySignature token key) as [f|q]; [naive_solver|].
  destruct (checkNotBefore now q) eqn:Hn.
  { split; [done|]. intros ([= <-] & ? & _). congruence. }
  destruct (checkExpiry now q) eqn:He.
  { split; [done|]. intros ([= <-] & _ & ?). congruence. }
  split; [by intros [= <-] | by intros ([= <-] & _)].
Qed.

(** [jose] requires in addition that [iat], where present, be a number. *)
Lemma joseOutcome_accepts token key now p :
  joseOutcome token key now = inr p ↔
  decode token = Some p ∧ signatureOk key token = true
  ∧ issuedAtIsNumber p = true ∧ active now p = true ∧ unexpired now p = true.
Proof.
  rewrite <- checkIssuedAt_passes, <- checkNotBefore_passes, <- checkExpiry_passes.
  rewrite (assoc and), <- verifySignature_accepts.
  unfold joseOutcome.
  destruct (verifySignature token key) as [f|q]; [naive_solver|].
  destruct (checkIssuedAt q) eqn:Hi.
  { split; [done|]. intros ([= <-] & ? & _). congruence. }
  destruct (checkNotBefore now q) eqn:Hn.
  { split; [done|]. intros ([= <-] & _ & ? & _). congruence. }
  destruct (checkExpiry now q) eqn:He.
  { split; [done|]. intros ([= <-] & _ & _ & ?). congruence. }
  split; [by intros [= <-] | by intros ([= <-] & _)].
Qed.

Lemma jwtVerify_accepts token key now p :
  jwtVerify token key now = inr p ↔ joseOutcome token key now = inr p.
Proof. unfold jwtVerify. destruct (joseOutcome token key now); naive_solver. Qed.

Lemma jwt_verify_accepts token key now p :
  jwt_verify token key now = inr p ↔ jsonwebtokenOutcome token key now = inr p.
Proof. unfold jwt_verify. destruct (jsonwebtokenOutcome token key now); naive_solver. Qed.

(** The [jsonwebtoken] revision resolves exactly what the package
    accepts. *)
Lemma verifyToken_accepts env now t c :
  AuthUtils.verifyToken env now t = Resolved c ↔
  decode t = Some c ∧ signatureOk (AuthUtils.JWT_SECRET env) t = true
  ∧ active now c = true ∧ unexpired now c = true.
Proof.
  rewrite <- jsonwebtokenOutcome_accepts, <- jwt_verify_accepts.
  unfold AuthUtils.verifyToken.
  destruct (jwt_verify _ _ _); naive_solver.
Qed.

(** C2, as amended. [verifyToken t] resolves to claims [c] if and only
    if [t] parses to [c], its signature verifies under the secret in
    use, and its time claims admit it: the clock is before its [exp] and
    not before its [nbf], for each of the two it carries, and each must
    then be a number. The [jose] revisions require in addition that
    [iat], when present, be a number, and that [userId], [username] and
    [role] be present: truthy in part_004, strings in part_003. *)
Theorem C2_verifyToken_accepts_iff (env : Env) (now : Z) (t : string) (c : Payload) :
  (AuthUtils.verifyToken env now t = Resolved c ↔
     decode t = Some c
     ∧ signatureOk (AuthUtils.JWT_SECRET env) t = true
     ∧ active now c = true
     ∧ unexpired now c = true)
  ∧ (AuthUtilsJose.verifyToken env now t = Resolved c ↔
     decode t = Some c
     ∧ signatureOk (AuthUtilsJose.secretKey env) t = true
     ∧ issuedAtIsNumber c = true
     ∧ active now c = true
     ∧ unexpired now c = true
     ∧ truthy (userId c) && truthy (username c) && truthy (role c) = true)
  ∧ (AuthUtilsJoseCodes.verifyToken env now t = Resolved c ↔
     decode t = Some c
     ∧ signatureOk (AuthUtilsJoseCodes.JWT_SECRET env) t = true
     ∧ issuedAtIsNumber c = true
     ∧ active now c = true
     ∧ unexpired now c = true
     ∧ isString (userId c) && isString (username c) && isString (role c) = true).
Proof.
  split; [|split].
  - apply verifyToken_accepts.
  - transitivity (joseOutcome t (AuthUtilsJose.secretKey env) now = inr c
                  ∧ truthy (userId c) && truthy (username c) && truthy (role c) = true);
      [|rewrite joseOutcome_accepts; naive_solver].
    rewrite <- jwtVerify_accepts.
    unfold AuthUtilsJose.verifyToken, AuthUtilsJose.tryVerify.
    destruct (jwtVerify _ _ _) as [e|q]; [naive_solver|].
    destruct (truthy (userId q)) eqn:H1, (truthy (username q)) eqn:H2,
             (truthy (role q)) eqn:H3; cbn [negb orb];
      (split; [intros [= <-] | intros [[= <-] Hf]]);
      rewrite ?H1, ?H2, ?H3 in *; done.
  - transitivity (joseOutcome t (AuthUtilsJoseCodes.JWT_SECRET env) now = inr c
                  ∧ isString (userId c) && isString (username c) && isString (role c)
                    = true);
      [|rewrite joseOutcome_accepts; naive_solver].
    rewrite <- jwtVerify_accepts.
    unfold AuthUtilsJoseCodes.verifyToken, AuthUtilsJoseCodes.tryVerify.
    destruct (jwtVerify _ _ _) as [e|q].
    + repeat case_bool_decide; naive_solver.
    + destruct (isString (userId q)) eqn:H1, (isString (username q)) eqn:H2,
               (isString (role q)) eqn:H3; cbn [negb orb code Error];
        repeat case_bool_decide; try done;
        (split; [intros [= <-] | intros [[= <-] Hf]]);
        rewrite ?H1, ?H2, ?H3 in *; done.
Qed.

(** The two revisions with a generic message reject with that one
    error whatever went wrong. *)
Lemma verifyToken_generic env now t :
  match AuthUtils.verifyToken env now t with
  | Resolved _ => True
  | Rejected e => e = Error "Invalid or expired token"
  end
  ∧ match AuthUtilsJose.verifyToken env now t with
    | Resolved _ => True
    | Rejected e => e = Error "Invalid or expired token"
    end.
Proof.
  unfold AuthUtils.verifyToken, AuthUtilsJose.verifyToken. split.
  - by destruct (jwt_verify _ _ _).
  - by destruct (AuthUtilsJose.tryVerify _ _ _).
Qed.

(** The part_003 revision names the failure in its message. *)
Lemma verifyToken_codes env now t :
  match AuthUtilsJoseCodes.verifyToken env now t with
  | Resolved _ => True
  | Rejected e =>
      e = Error (messageFor (joseOutcome t (AuthUtilsJoseCodes.JWT_SECRET env) now))
  end.
Proof.
  unfold AuthUtilsJoseCodes.verifyToken, AuthUtilsJoseCodes.tryVerify, jwtVerify.
  destruct (joseOutcome _ _ _) as [[]|q]; cbn; [done..|].
  by destruct (negb _ || negb _ || negb _).
Qed.

(** C3, as amended. In the [authUtils.ts] and part_004 revisions every
    failure of [verifyToken] is the one error ["Invalid or expired
    token"]. The part_003 revision throws a message per failure mode;
    the mode stays behind the request gate: on a path it checks, a
    request whose token the verifier rejects, under any of the
    revisions and whatever the error, is answered with the same 401
    ["Invalid or expired token"], and no rejection of the gate carries
    any other message than this one and ["Authentication required"]. *)
Theorem C3_failure_modes `{W : Middleware.FetchHeaders} (env : Env) (now : Z)
    (t : string) (verifier : string → Promise Payload)
    (req : Middleware.NextRequest) :
  match AuthUtils.verifyToken env now t with
  | Resolved _ => True
  | Rejected e => e = Error "Invalid or expired token"
  end
  ∧ match AuthUtilsJose.verifyToken env now t with
    | Resolved _ => True
    | Rejected e => e = Error "Invalid or expired token"
    end
  ∧ match AuthUtilsJoseCodes.verifyToken env now t with
    | Resolved _ => True
    | Rejected e =>
        e = Error (messageFor (joseOutcome t (AuthUtilsJoseCodes.JWT_SECRET env) now))
    end
  ∧ (Middleware.isProtectedApi (Middleware.pathname req) = true →
     includesChar (Middleware.pathname req) "." = false →
     Middleware.headerToken (Middleware.authorization req) = Some t → t ≠ "" →
     ∀ error, verifier t = Rejected error →
       Middleware.middleware verifier req
       = Middleware.json "Invalid or expired token" 401)
  ∧ match Middleware.middleware verifier req with
    | Middleware.json m s =>
        s = 401 ∧ (m = "Authentication required" ∨ m = "Invalid or expired token")
    | _ => True
    end.
Proof.
  pose proof (verifyToken_generic env now t) as [H1 H2].
  split; [done|]. split; [done|]. split; [apply verifyToken_codes|]. split.
  - intros Hapi Hdot Htok Hne error Hv. by eapply GateProofs.middleware_rejected.
  - apply GateProofs.middleware_rejections.
Qed.

Lemma JWT_SECRET_missing (env : Env) :
  env !! "JWT_SECRET" = None ∨ env !! "JWT_SECRET" = Some "" →
  AuthUtils.JWT_SECRET env = fallback
  ∧ AuthUtilsJose.JWT_SECRET env = fallback
  ∧ AuthUtilsJoseCodes.JWT_SECRET env = fallback
  ∧ Login.JWT_SECRET env = fallback.
Proof.
  intros H. unfold AuthUtils.JWT_SECRET, AuthUtilsJose.JWT_SECRET,
    AuthUtilsJoseCodes.JWT_SECRET, AuthUtilsJoseCodes.JWT_SECRET_STRING,
    Login.JWT_SECRET.
  by rewrite (orElse_missing _ _ H).
Qed.

Lemma JWT_SECRET_set (env : Env) s :
  s ≠ "" →
  AuthUtils.JWT_SECRET (<["JWT_SECRET" := s]> env) = s
  ∧ AuthUtilsJose.JWT_SECRET (<["JWT_SECRET" := s]> env) = s
  ∧ AuthUtilsJoseCodes.JWT_SECRET (<["JWT_SECRET" := s]> env) = s
  ∧ Login.JWT_SECRET (<["JWT_SECRET" := s]> env) = s.
Proof.
  intros H. unfold AuthUtils.JWT_SECRET, AuthUtilsJose.JWT_SECRET,
    AuthUtilsJoseCodes.JWT_SECRET, AuthUtilsJoseCodes.JWT_SECRET_STRING,
    Login.JWT_SECRET.
  rewrite lookup_insert_eq. by rewrite (orElse_present _ _ H).
Qed.

(** C4, as amended. When [JWT_SECRET] is missing from the environment
    (or empty) nothing fails at startup: every module takes the fixed
    fallback secret in its place, and issuing and verifying proceed
    exactly as in an environment that sets [JWT_SECRET] to that
    fallback. *)
Theorem C4_missing_secret_uses_fallback {C : CryptoUtils.NodeCrypto} (env : Env) :
  env !! "JWT_SECRET" = None ∨ env !! "JWT_SECRET" = Some "" →
  (AuthUtils.JWT_SECRET env = fallback ∧ Login.secretKey env = fallback)
  ∧ (∀ now t,
       AuthUtils.verifyToken env now t
       = AuthUtils.verifyToken (<["JWT_SECRET" := fallback]> env) now t
       ∧ AuthUtilsJose.verifyToken env now t
         = AuthUtilsJose.verifyToken (<["JWT_SECRET" := fallback]> env) now t
       ∧ AuthUtilsJoseCodes.verifyToken env now t
         = AuthUtilsJoseCodes.verifyToken (<["JWT_SECRET" := fallback]> env) now t)
  ∧ (∀ now users body,
       Login.POST env now users body
       = Login.POST (<["JWT_SECRET" := fallback]> env) now users body).
Proof.
  intros Hmiss.
  destruct (JWT_SECRET_missing env Hmiss) as (E1 & E2 & E3 & E4).
  destruct (JWT_SECRET_set env fallback) as (F1 & F2 & F3 & F4); [done|].
  split; [done|]. split.
  - intros now t.
    unfold AuthUtils.verifyToken, AuthUtilsJose.verifyToken,
      AuthUtilsJose.tryVerify, AuthUtilsJose.secretKey,
      AuthUtilsJoseCodes.verifyToken, AuthUtilsJoseCodes.tryVerify.
    by rewrite E1, E2, E3, F1, F2, F3.
  - intros now users body. unfold Login.POST, Login.secretKey.
    by rewrite E4, F4.
Qed.

End WithPackage.
Import Sample Middleware.

(** Counterexample to C2 as stated. A token whose signature verifies
    under the secret in use and whose [exp] (4600) is after the clock
    (1000) is refused by the part_004 revision: it carries no role. *)
Lemma C2_counterexample :
  signatureOk (JwtPackage := samplePackage) (AuthUtilsJose.secretKey ∅) rolelessToken
  = true
  ∧ decode (JwtPackage := samplePackage) rolelessToken = Some rolelessClaims
  ∧ exp rolelessClaims = JNumber 4600
  ∧ 1000 < 4600
  ∧ AuthUtilsJose.verifyToken (P := samplePackage) ∅ 1000 rolelessToken
    = Rejected (Error "Invalid or expired token").
Proof. repeat split; vm_compute; reflexivity. Qed.

(** Witness of C3: the orders API asked with an expired token, the gate
    over the part_003 verifier. *)
Lemma C3_witness :
  AuthUtilsJoseCodes.verifyToken (P := samplePackage) ∅ 1000 staleToken
  = Rejected (Error "Token expired")
  ∧ middleware (AuthUtilsJoseCodes.verifyToken (P := samplePackage) ∅ 1000)
      (mkRequest "/api/orders" (Some ("Bearer " +:+ staleToken)))
    = json "Invalid or expired token" 401.
Proof.
  assert (Hne : staleToken ≠ "") by (by vm_compute).
  split; [reflexivity|].
  exact (proj1 (proj2 (proj2 (proj2
           (C3_failure_modes (P := samplePackage) (W := sampleHeaders) ∅ 1000 staleToken
              (AuthUtilsJoseCodes.verifyToken (P := samplePackage) ∅ 1000)
              (mkRequest "/api/orders" (Some ("Bearer " +:+ staleToken)))))))
           eq_refl eq_refl eq_refl Hne (Error "Token expired") eq_refl).
Defined.

(** Counterexample to C3 as stated. The part_003 revision surfaces three
    different errors for an expired, a forged and a garbled token. *)
Lemma C3_counterexample :
  AuthUtilsJoseCodes.verifyToken (P := samplePackage) ∅ 1000 staleToken
  = Rejected (Error "Token expired")
  ∧ AuthUtilsJoseCodes.verifyToken (P := samplePackage) ∅ 1000 forgedToken
    = Rejected (Error "Invalid token signature")
  ∧ AuthUtilsJoseCodes.verifyToken (P := samplePackage) ∅ 1000 garbledToken
    = Rejected (Error "Invalid token format").
Proof. repeat split; vm_compute; reflexivity. Qed.

(** Counterexample to C4 as stated. With no [JWT_SECRET] in the
    environment the login endpoint issues a token signed with the
    fallback secret, and the request gate accepts it. *)
Lemma C4_counterexample :
  (∅ : Env) !! "JWT_SECRET" = None
  ∧ Login.POST (C := sampleCrypto) (P := samplePackage) ∅ 1000 sampleUsers
      (inr (Some "admin", Some "password123"))
    = Login.token_json (fallback +:+ ".admin")
  ∧ middleware (AuthUtils.verifyToken (P := samplePackage) ∅ 1000)
      (mkRequest "/api/products" (Some ("Bearer " +:+ fallback +:+ ".admin")))
    = nextWithUserInfo adminClaims.
Proof. repeat split; vm_compute; reflexivity. Qed.

(** Witness of C4: the empty environment. *)
Lemma C4_witness :
  (AuthUtils.JWT_SECRET ∅ = fallback ∧ Login.secretKey ∅ = fallback)
  ∧ (∀ now t,
       AuthUtils.verifyToken (P := samplePackage) ∅ now t
       = AuthUtils.verifyToken (P := samplePackage) (<["JWT_SECRET" := fallback]> ∅) now t
       ∧ AuthUtilsJose.verifyToken (P := samplePackage) ∅ now t
         = AuthUtilsJose.verifyToken (P := samplePackage) (<["JWT_SECRET" := fallback]> ∅) now t
       ∧ AuthUtilsJoseCodes.verifyToken (P := samplePackage) ∅ now t
         = AuthUtilsJoseCodes.verifyToken (P := samplePackage) (<["JWT_SECRET" := fallback]> ∅) now t)
  ∧ (∀ now users body,
       Login.POST (C := sampleCrypto) (P := samplePackage) ∅ now users body
       = Login.POST (C := sampleCrypto) (P := samplePackage) (<["JWT_SECRET" := fallback]> ∅) now users body).
Proof.
  apply (C4_missing_secret_uses_fallback (P := samplePackage) (C := sampleCrypto) ∅).
  left. reflexivity.
Defined.

End TokenProofs.

(** ** Session controller *)

Module SessionProofs.
Import Js AuthContext.

Lemma navigationEffect_loading r : isLoading r = true → navigationEffect r = [].
Proof. unfold navigationEffect. by intros ->. Qed.

(** The navigation policy only ever pushes routes. *)
Lemma navigationEffect_pushes r : Forall (λ e, isStorageRead e = false) (navigationEffect r).
Proof.
  unfold navigationEffect.
  repeat match goal with |- context [if ?b then _ else _] => destruct b end;
    repeat constructor.
Qed.

Lemma commit_pushes r r' : Forall (λ e, isStorageRead e = false) (commit r r').
Proof.
  unfold commit. case_bool_decide; [constructor | apply navigationEffect_pushes].
Qed.

Lemma commit_same r : commit r r = [].
Proof. unfold commit. by rewrite bool_decide_eq_true_2. Qed.

(** What [setToken] leaves rendered: the new token, loading over. *)
Lemma setToken_rendered v w :
  rendered (setToken v w) = mkRender v false (pathname (rendered w)).
Proof. unfold setToken, setTokenBody. by destruct (truthyStr v). Qed.

Lemma setToken_localStorage v w :
  localStorage (setToken v w) =
    if truthyStr v then <["adminToken" := default "" v]> (localStorage w)
    else delete "adminToken" (localStorage w).
Proof. unfold setToken, setTokenBody. by destruct (truthyStr v). Qed.

Lemma setToken_trace v w :
  trace (setToken v w) =
    trace w
    ++ (if truthyStr v then [SetItem "adminToken" (default "" v)]
        else [RemoveItem "adminToken"])
    ++ (if negb (truthyStr v) && negb (String.eqb (pathname (rendered w)) "/login")
        then [Push "/login"]
        else if truthyStr v && String.eqb (pathname (rendered w)) "/login"
        then [Push "/dashboard"] else [])
    ++ commit (rendered w) (mkRender v false (pathname (rendered w))).
Proof.
  unfold setToken, setTokenBody.
  destruct (truthyStr v); cbn; by rewrite <- ?(assoc app).
Qed.

(** C8, as amended. Calling [setToken] a second time with the same value
    leaves the rendered state and the storage slot as the first call left
    them, and the second call is not followed by a run of the navigation
    effect; but [setToken] has no same-value guard: the second call again
    performs exactly one persistence operation ([setItem] or [removeItem])
    and again evaluates the route, pushing ["/login"] when the value is
    absent off the login route and ["/dashboard"] when it is present on
    the login route. *)
Theorem C8_setToken_twice (v : option string) (w : World) :
  rendered (setToken v (setToken v w)) = rendered (setToken v w)
  ∧ localStorage (setToken v (setToken v w)) = localStorage (setToken v w)
  ∧ since (setToken v w) (setToken v (setToken v w)) =
      (if truthyStr v then [SetItem "adminToken" (default "" v)]
       else [RemoveItem "adminToken"])
      ++ (if negb (truthyStr v) && negb (String.eqb (pathname (rendered w)) "/login")
          then [Push "/login"]
          else if truthyStr v && String.eqb (pathname (rendered w)) "/login"
          then [Push "/dashboard"] else [])
  ∧ length (filter (λ e, isStorageWrite e = true)
              (since (setToken v w) (setToken v (setToken v w)))) = 1%nat.
Proof.
  assert (Hsince : since (setToken v w) (setToken v (setToken v w)) =
    (if truthyStr v then [SetItem "adminToken" (default "" v)]
     else [RemoveItem "adminToken"])
    ++ (if negb (truthyStr v) && negb (String.eqb (pathname (rendered w)) "/login")
        then [Push "/login"]
        else if truthyStr v && String.eqb (pathname (rendered w)) "/login"
        then [Push "/dashboard"] else [])).
  { unfold since. rewrite (setToken_trace v (setToken v w)).
    rewrite drop_app_length, setToken_rendered. cbn [pathname].
    rewrite commit_same. by rewrite app_nil_r. }
  split; [|split; [|split]].
  - by rewrite !setToken_rendered.
  - rewrite !setToken_localStorage. destruct (truthyStr v).
    + apply insert_insert_eq.
    + apply delete_delete_eq.
  - exact Hsince.
  - rewrite Hsince.
    by destruct (truthyStr v), (String.eqb (pathname (rendered w)) "/login").
Qed.

(** Counterexample to C8 as stated. In the unauthenticated state, on the
    dashboard route, a second [setToken(null)] again calls [removeItem]
    and again pushes the login route. *)
Lemma C8_counterexample :
  run [Mount; SetToken None] (initial "/dashboard" ∅) = Some Sample.loggedOut
  ∧ isAuthenticated Sample.loggedOut = false
  ∧ since Sample.loggedOut (setToken None Sample.loggedOut)
    = [RemoveItem "adminToken"; Push "/login"].
Proof. repeat split; vm_compute; reflexivity. Qed.

Lemma settled_initial route ls : settled (initial route ls).
Proof. done. Qed.

(** Closes goals stating that a piece of trace contains no storage
    read. *)
Ltac no_reads :=
  repeat first
    [ assumption
    | apply commit_pushes
    | apply Forall_nil_2
    | apply Forall_cons_2; [reflexivity|]
    | apply Forall_app_2
    | match goal with |- context [if ?b then _ else _] => destruct b end ].

Lemma settled_dispatch e w w' : dispatch e w = Some w' → settled w → settled w'.
Proof.
  unfold settled. destruct e as [|v| |p]; cbn [dispatch];
    destruct (mounted w) eqn:Hm; try done; intros [= <-].
  - (* Mount *)
    intros [Hload Htr]. unfold mount, startupEffect.
    rewrite (navigationEffect_loading _ Hload), Htr.
    destruct (truthyStr _); cbn; (split; [done|]);
      eexists; (split; [done | apply commit_pushes]).
  - (* SetToken *)
    intros [_ (rest & Htr & Hrest)].
    replace (mounted (setToken v w)) with true
      by (unfold setToken, setTokenBody; by destruct (truthyStr v)).
    rewrite setToken_rendered, setToken_trace, Htr. split; [done|].
    eexists. split; [done|]. no_reads.
  - (* Logout *)
    intros [_ (rest & Htr & Hrest)]. unfold logout, setTokenBody.
    cbn [truthyStr negb andb mounted rendered trace isLoading applyUpdates
         fold_left applyUpdate].
    rewrite Hm, Htr. split; [done|].
    eexists. split; [done|]. no_reads.
  - (* RouteChange *)
    intros [Hload (rest & Htr & Hrest)]. unfold routeChange.
    cbn [mounted rendered trace isLoading].
    rewrite Hm, Htr. split; [done|].
    eexists. split; [done|]. no_reads.
Qed.

Lemma settled_run es : ∀ w w', run es w = Some w' → settled w → settled w'.
Proof.
  induction es as [|e es IH]; cbn [run]; intros w w'.
  - by intros [= <-].
  - destruct (dispatch e w) as [w1|] eqn:Hd; [|done].
    intros Hrun Hw. eapply IH; [done|]. by eapply settled_dispatch.
Qed.

Lemma reachable_settled w : reachable w → settled w.
Proof.
  intros (route & ls & es & Hrun).
  eapply settled_run; [done | apply settled_initial].
Qed.

(** C9. In every reachable state of the provider in which [isLoading] is
    still true no redirect has been made (nothing has been done at all) and
    the navigation policy, run in that state, makes none; and in every
    reachable state each redirect in the trace comes after the startup read
    of the stored token, which occurs once. *)
Theorem C9_no_redirect_before_startup_read (w : World) :
  reachable w →
  (isLoading (rendered w) = true →
     trace w = [] ∧ navigationEffect (rendered w) = [])
  ∧ (∀ before route after,
       trace w = before ++ Push route :: after →
       GetItem "adminToken" ∈ before)
  ∧ (length (filter (λ e, isStorageRead e = true) (trace w)) ≤ 1)%nat.
Proof.
  intros Hs%reachable_settled. unfold settled in Hs.
  destruct (mounted w).
  - destruct Hs as [Hload (rest & Htr & Hrest)]. split; [congruence|]. split.
    + intros before route after Heq. rewrite Htr in Heq.
      destruct before as [|e before]; [done|].
      injection Heq as <- _. apply list_elem_of_here.
    + rewrite Htr. rewrite filter_cons_True by done.
      replace (filter _ rest) with (@nil Effect); [cbn; lia|].
      symmetry. clear Htr. induction Hrest as [|e rest He _ IH]; [done|].
      rewrite filter_cons_False by congruence. done.
  - destruct Hs as [Hload Htr]. rewrite Htr. split.
    + intros _. split; [done | by apply navigationEffect_loading].
    + split; [|cbn; lia]. intros [|??] ?? Heq; done.
Qed.

(** Witness of C9: the provider mounted on the login route over a stored
    token; its trace is the read followed by the push of ["/dashboard"]. *)
Lemma C9_witness :
  (isLoading (rendered Sample.restored) = true →
     trace Sample.restored = [] ∧ navigationEffect (rendered Sample.restored) = [])
  ∧ (∀ before route after,
       trace Sample.restored = before ++ Push route :: after →
       GetItem "adminToken" ∈ before)
  ∧ (length (filter (λ e, isStorageRead e = true) (trace Sample.restored)) ≤ 1)%nat.
Proof.
  apply (C9_no_redirect_before_startup_read Sample.restored).
  exists "/login", {["adminToken" := "abc"]}, [Mount]. reflexivity.
Defined.

End SessionProofs.

(* ===================================================================== *)
(** * Part III: further properties of the code                            *)
(* ===================================================================== *)

(** ** Credential hasher *)

Module HasherExtras.
Import Js CryptoUtils Terms JsFacts HasherFacts.

Lemma toHex_length buf : String.length (toHex buf) = (2 * length buf)%nat.
Proof. induction buf as [|b r IH]; [done|]. cbn [toHex String.length length]. lia. Qed.

Lemma toHex_isLowerHex buf : isLowerHexString (toHex buf) = true.
Proof.
  induction buf as [|b r IH]; [done|].
  cbn [toHex isLowerHexString]. rewrite IH. by destruct b.
Qed.

(** The two halves of [salt:keyHex], whatever follows a second colon. *)
Lemma split_two salt keyHex :
  includesChar salt ":" = false → includesChar keyHex ":" = false →
  split ":" (salt +:+ ":" +:+ keyHex) = [salt; keyHex].
Proof.
  intros Hs Hk. change (":" +:+ keyHex) with (String ":" keyHex).
  rewrite split_app by done. by rewrite split_no_sep.
Qed.

Lemma split_three salt keyHex tail :
  includesChar salt ":" = false → includesChar keyHex ":" = false →
  split ":" (salt +:+ ":" +:+ keyHex +:+ ":" +:+ tail)
  = salt :: keyHex :: split ":" tail.
Proof.
  intros Hs Hk.
  change (":" +:+ keyHex +:+ ":" +:+ tail) with (String ":" (keyHex +:+ String ":" tail)).
  rewrite split_app by done. by rewrite split_app.
Qed.

Section WithCrypto.
Context {C : NodeCrypto} {S : NodeCryptoSpec C}.

(** What a resolved [pbkdf2Hash] was built from. *)
Lemma pbkdf2Hash_parts password h :
  pbkdf2Hash password = Resolved h →
  ∃ bytes key,
    length bytes = SALT_BYTES ∧ length key = KEY_LENGTH
    ∧ pbkdf2 password (toHex bytes) ITERATIONS KEY_LENGTH HASH_ALGORITHM = inr key
    ∧ h = toHex bytes +:+ ":" +:+ toHex key.
Proof.
  unfold pbkdf2Hash.
  destruct (randomBytes SALT_BYTES) as [thrown|bytes] eqn:Hb; [done|].
  destruct (pbkdf2 _ _ _ _ _) as [err|key] eqn:Hk; [done|].
  intros [= <-]. exists bytes, key.
  split; [by apply randomBytes_length in Hb|].
  split; [by apply pbkdf2_length in Hk | done].
Qed.

(** X1. Every stored hash [pbkdf2Hash] produces reads [salt:key] with a
    salt of 32 and a key of 128 characters, each one of [0]-[9] and
    [a]-[f] (lowercase hex digits), 161 characters in all, and splits on
    the colon into exactly these two halves. *)
Theorem X1_hash_format (password h : string) :
  pbkdf2Hash password = Resolved h →
  ∃ salt keyHex,
    h = salt +:+ ":" +:+ keyHex
    ∧ String.length salt = 32%nat ∧ String.length keyHex = 128%nat
    ∧ isLowerHexString salt = true ∧ isLowerHexString keyHex = true
    ∧ split ":" h = [salt; keyHex].
Proof.
  intros (bytes & key & Hb & Hk & _ & ->)%pbkdf2Hash_parts.
  exists (toHex bytes), (toHex key).
  rewrite !toHex_length, Hb, Hk, !toHex_isLowerHex, split_stored. done.
Qed.

(** X2. [pbkdf2Verify] resolves to [true] exactly when the stored hash
    has a non-empty first segment and the second segment hex-decodes
    (stopping at the first non-hex pair) to the key derived from the
    candidate password with that first segment, taken as text, as salt. *)
Theorem X2_verify_accepts_iff (storedHash providedPassword : string) :
  pbkdf2Verify storedHash providedPassword = Resolved true ↔
  ∃ salt keyHex key,
    saltOf storedHash = Some salt ∧ salt ≠ ""
    ∧ keyHexOf storedHash = Some keyHex
    ∧ pbkdf2 providedPassword salt ITERATIONS KEY_LENGTH HASH_ALGORITHM = inr key
    ∧ fromHex keyHex = key.
Proof.
  unfold pbkdf2Verify, saltOf, keyHexOf.
  destruct (split ":" storedHash !! 0%nat) as [salt|] eqn:Hs; cbn [truthyStr negb orb];
    [|naive_solver].
  destruct (String.eqb_spec salt "") as [->|Hne]; cbn [negb orb]; [naive_solver|].
  destruct (split ":" storedHash !! 1%nat) as [keyHex|] eqn:Hk; cbn [truthyStr negb];
    [|naive_solver].
  cbn [default from_option id].
  destruct (String.eqb_spec keyHex "") as [->|Hke]; cbn [negb].
  - split; [done|]. intros (s & k & key & [= <-] & _ & [= <-] & Hkey & Hdec).
    apply pbkdf2_length in Hkey. by rewrite <- Hdec in Hkey.
  - destruct (pbkdf2 providedPassword salt _ _ _) as [err|key] eqn:Hkey.
    { split; [done|].
      intros (s & k & key' & [= <-] & _ & [= <-] & Hkey' & _). congruence. }
    rewrite fromHex_toHex. unfold timingSafeEqual.
    destruct (Nat.eqb_spec (length key) (length (fromHex keyHex))) as [Hlen|Hlen].
    + case_bool_decide as Heq; split.
      * intros _. exists salt, keyHex, key. done.
      * done.
      * done.
      * intros (s & k & key' & [= <-] & _ & [= <-] & Hkey' & Hdec). congruence.
    + split; [done|].
      intros (s & k & key' & [= <-] & _ & [= <-] & Hkey' & Hdec).
      rewrite Hdec in Hlen. congruence.
Qed.

(** X3. Against the hash of [p], a candidate [q] is accepted exactly when
    it derives, under the stored salt, the key [p] derived: the answer is
    the comparison of the two derived keys. *)
Theorem X3_verify_compares_derived_keys (p h : string) :
  pbkdf2Hash p = Resolved h →
  ∃ salt key,
    saltOf h = Some salt
    ∧ pbkdf2 p salt ITERATIONS KEY_LENGTH HASH_ALGORITHM = inr key
    ∧ ∀ q key',
        pbkdf2 q salt ITERATIONS KEY_LENGTH HASH_ALGORITHM = inr key' →
        pbkdf2Verify h q = Resolved (bool_decide (key' = key)).
Proof.
  intros (bytes & key & Hb & Hk & Hkey & ->)%pbkdf2Hash_parts.
  exists (toHex bytes), key. unfold saltOf. rewrite split_stored.
  split; [done|]. split; [done|].
  intros q key' Hq. unfold pbkdf2Verify. rewrite split_stored.
  cbn [lookup list_lookup default from_option id].
  assert (Hsalt : truthyStr (Some (toHex bytes)) = true).
  { apply truthyStr_Some, toHex_nonempty. apply (nonempty_of_length _ 15). done. }
  assert (Hhex : truthyStr (Some (toHex key)) = true).
  { apply truthyStr_Some, toHex_nonempty. apply (nonempty_of_length _ 63). done. }
  rewrite Hsalt, Hhex. cbn [negb orb]. rewrite Hq, !fromHex_toHex.
  unfold timingSafeEqual. apply pbkdf2_length in Hq. rewrite Hq, Hk.
  by rewrite Nat.eqb_refl.
Qed.

(** X4. Only the first two colon-separated segments of a stored hash are
    read: whatever follows a second colon changes nothing. *)
Theorem X4_extra_segments_ignored (salt keyHex tail providedPassword : string) :
  includesChar salt ":" = false → includesChar keyHex ":" = false →
  pbkdf2Verify (salt +:+ ":" +:+ keyHex +:+ ":" +:+ tail) providedPassword
  = pbkdf2Verify (salt +:+ ":" +:+ keyHex) providedPassword.
Proof.
  intros Hs Hk. unfold pbkdf2Verify.
  rewrite split_three, split_two by done. done.
Qed.

End WithCrypto.

(** Witness of X1: the hash of the seeded password under the sample
    derivation. *)
Lemma X1_witness :
  ∃ salt keyHex,
    "00000000000000000000000000000000:" +:+ toHex (repeat x37 64)
    = salt +:+ ":" +:+ keyHex
    ∧ String.length salt = 32%nat ∧ String.length keyHex = 128%nat
    ∧ isLowerHexString salt = true ∧ isLowerHexString keyHex = true
    ∧ split ":" ("00000000000000000000000000000000:" +:+ toHex (repeat x37 64))
      = [salt; keyHex].
Proof.
  apply (X1_hash_format (C := Sample.sampleCrypto) "password123"). reflexivity.
Defined.

(** Witness of X2: the sample derivation and a stored hash with trailing
    text after the key. *)
Lemma X2_witness :
  pbkdf2Verify (C := Sample.sampleCrypto)
    ("00:" +:+ toHex (repeat x99 64) +:+ "zz") "pw" = Resolved true ↔
  ∃ salt keyHex key,
    saltOf ("00:" +:+ toHex (repeat x99 64) +:+ "zz") = Some salt ∧ salt ≠ ""
    ∧ keyHexOf ("00:" +:+ toHex (repeat x99 64) +:+ "zz") = Some keyHex
    ∧ pbkdf2 (NodeCrypto := Sample.sampleCrypto) "pw" salt
        ITERATIONS KEY_LENGTH HASH_ALGORITHM = inr key
    ∧ fromHex keyHex = key.
Proof.
  apply (X2_verify_accepts_iff (S := sampleCryptoSpec)).
Defined.

(** Witness of X3: the same hash. *)
Lemma X3_witness :
  ∃ salt key,
    saltOf ("00000000000000000000000000000000:" +:+ toHex (repeat x37 64)) = Some salt
    ∧ pbkdf2 (NodeCrypto := Sample.sampleCrypto) "password123" salt
        ITERATIONS KEY_LENGTH HASH_ALGORITHM = inr key
    ∧ ∀ q key',
        pbkdf2 (NodeCrypto := Sample.sampleCrypto) q salt
          ITERATIONS KEY_LENGTH HASH_ALGORITHM = inr key' →
        pbkdf2Verify (C := Sample.sampleCrypto)
          ("00000000000000000000000000000000:" +:+ toHex (repeat x37 64)) q
        = Resolved (bool_decide (key' = key)).
Proof.
  apply (X3_verify_compares_derived_keys (C := Sample.sampleCrypto) "password123").
  reflexivity.
Defined.

(** Witness of X4: a stored hash followed by a note. *)
Lemma X4_witness :
  pbkdf2Verify (C := Sample.sampleCrypto)
    ("00" +:+ ":" +:+ toHex (repeat x99 64) +:+ ":" +:+ "rotated 2024") "pw"
  = pbkdf2Verify (C := Sample.sampleCrypto)
      ("00" +:+ ":" +:+ toHex (repeat x99 64)) "pw".
Proof.
  apply (X4_extra_segments_ignored (C := Sample.sampleCrypto)); reflexivity.
Defined.

End HasherExtras.

(** ** Request gate *)

Module GateExtras.
Import Js Jwt Terms JsFacts Middleware.

Lemma strictEqStr_true v s : strictEqStr v s = true ↔ v = JString s.
Proof.
  destruct v; cbn; try (split; congruence).
  destruct (String.eqb_spec s0 s); split; congruence.
Qed.

Lemma isProtectedApi_prefixes p :
  isProtectedApi p = startsWith p "/api/products" || startsWith p "/api/orders".
Proof. unfold isProtectedApi, protectedApiPaths. cbn [existsb]. by rewrite orb_false_r. Qed.

Section WithVerifier.
Context `{W : FetchHeaders}.
Variable verifyToken : string → Promise Payload.

(** A request examined by the gate is never answered with the plain
    [NextResponse.next()]. *)
Lemma middleware_checked req :
  passesUnchecked (pathname req) = false →
  isProtectedApi (pathname req) = true →
  middleware verifyToken req ≠ next.
Proof.
  unfold middleware, tryAuthorize. intros -> ->.
  destruct (negb (truthyStr _)); [done|].
  destruct (verifyToken _) as [d|e]; [|done].
  destruct (negb (strictEqStr _ _)); [done|].
  by destruct (setUserInfo d).
Qed.

(** X5. The gate lets a request through unexamined exactly when its path
    contains a dot or starts with neither [/api/products] nor
    [/api/orders]. The [/_next/] prefix and the two public paths decide
    nothing on their own, since such paths lie outside both prefixes;
    the [Authorization] header and the verifier play no part. *)
Theorem X5_passes_iff (req : NextRequest) :
  middleware verifyToken req = next ↔
  includesChar (pathname req) "." = true
  ∨ (startsWith (pathname req) "/api/products" = false
     ∧ startsWith (pathname req) "/api/orders" = false).
Proof.
  destruct (isProtectedApi (pathname req)) eqn:Hapi.
  - pose proof (GateProofs.protected_prefix_exemption _ Hapi) as Hex.
    rewrite isProtectedApi_prefixes in Hapi.
    destruct (includesChar (pathname req) ".") eqn:Hdot.
    + split; [by left|]. intros _. by apply GateProofs.middleware_dot.
    + split.
      * intros Hnext. exfalso. revert Hnext. apply middleware_checked; [done|].
        by rewrite isProtectedApi_prefixes.
      * intros [?|[H1 H2]]; [done|]. by rewrite H1, H2 in Hapi.
  - split.
    + intros _. right. rewrite isProtectedApi_prefixes in Hapi.
      by apply orb_false_elim in Hapi.
    + intros _. unfold middleware. rewrite Hapi. by destruct (passesUnchecked _).
Qed.

(** X6. The gate forwards claims to the API exactly when the path is a
    checked protected path, the second space-separated segment of the
    header is a non-empty token, the verifier resolved that very token to
    those claims, their role is the string ["admin"], and the serialised
    claims were taken as value of the [X-User-Info] header. When all but
    the last hold, the error thrown by the header is caught and the
    request answered 401 ["Invalid or expired token"]. *)
Theorem X6_forwards_iff (req : NextRequest) (decoded : Payload) :
  (middleware verifyToken req = nextWithUserInfo decoded ↔
   passesUnchecked (pathname req) = false
   ∧ isProtectedApi (pathname req) = true
   ∧ ∃ token value,
       headerToken (authorization req) = Some token ∧ token ≠ ""
       ∧ verifyToken token = Resolved decoded
       ∧ role decoded = JString "admin"
       ∧ setUserInfo decoded = inr value)
  ∧ (passesUnchecked (pathname req) = false →
     isProtectedApi (pathname req) = true →
     ∀ token thrown,
       headerToken (authorization req) = Some token → token ≠ "" →
       verifyToken token = Resolved decoded →
       role decoded = JString "admin" →
       setUserInfo decoded = inl thrown →
       middleware verifyToken req = json "Invalid or expired token" 401).
Proof.
  split.
  - unfold middleware, tryAuthorize.
    destruct (passesUnchecked _); [naive_solver|].
    destruct (isProtectedApi _); [|naive_solver].
    destruct (headerToken (authorization req)) as [token|] eqn:Htok;
      cbn [truthyStr negb default from_option id]; [|naive_solver].
    destruct (String.eqb_spec token "") as [->|Hne]; cbn [negb]; [naive_solver|].
    destruct (verifyToken token) as [d|e] eqn:Hv.
    + destruct (strictEqStr (role d) "admin") eqn:Hr; cbn [negb].
      * apply strictEqStr_true in Hr.
        destruct (setUserInfo d) as [thrown|value] eqn:Hset.
        -- split; [done|].
           intros (_ & _ & t & v & [= <-] & _ & Hv' & _ & Hset'). congruence.
        -- split.
           ++ intros [= <-]. eauto 10.
           ++ intros (_ & _ & t & v & [= <-] & _ & Hv' & _). congruence.
      * split; [done|].
        intros (_ & _ & t & v & [= <-] & _ & Hv' & Hr'%strictEqStr_true & _).
        congruence.
    + split; [done|]. intros (_ & _ & t & v & [= <-] & _ & Hv' & _). congruence.
  - intros Hchk Hapi token thrown Htok Hne Hv Hrole Hset.
    rewrite (GateProofs.middleware_token _ _ token) by done.
    unfold tryAuthorize. rewrite Hv, Hrole, Hset. cbn [strictEqStr].
    by rewrite String.eqb_refl.
Qed.

(** [split(' ')[1]] when more segments follow the token. *)
Lemma headerToken_more_words scheme token rest :
  includesChar scheme " " = false → includesChar token " " = false →
  headerToken (Some (scheme +:+ " " +:+ token +:+ " " +:+ rest)) = Some token.
Proof.
  intros Hs Ht. unfold headerToken. cbn [mbind option_bind].
  change (" " +:+ token +:+ " " +:+ rest) with (String " " (token +:+ String " " rest)).
  rewrite split_app by done. by rewrite split_app.
Qed.

Lemma headerToken_double_space scheme rest :
  includesChar scheme " " = false →
  headerToken (Some (scheme +:+ "  " +:+ rest)) = Some "".
Proof.
  intros Hs. unfold headerToken. cbn [mbind option_bind].
  change ("  " +:+ rest) with (String " " ("" +:+ String " " rest)).
  rewrite split_app by done. by rewrite split_app.
Qed.

Lemma middleware_header req h1 h2 :
  headerToken h1 = headerToken h2 →
  middleware verifyToken (mkRequest (pathname req) h1)
  = middleware verifyToken (mkRequest (pathname req) h2).
Proof. unfold middleware. cbn [pathname authorization]. by intros ->. Qed.

(** X7. Whatever follows the token in the header is ignored: a header
    [scheme token rest] is decided like [scheme token]. And two spaces
    after the scheme make the token empty: on a checked path the request
    is rejected with 401 ["Authentication required"] without the verifier
    being asked. *)
Theorem X7_header_segments (path scheme token rest : string) :
  includesChar scheme " " = false → includesChar token " " = false →
  middleware verifyToken
    (mkRequest path (Some (scheme +:+ " " +:+ token +:+ " " +:+ rest)))
  = middleware verifyToken (mkRequest path (Some (scheme +:+ " " +:+ token)))
  ∧ (passesUnchecked path = false → isProtectedApi path = true →
     middleware verifyToken (mkRequest path (Some (scheme +:+ "  " +:+ rest)))
     = json "Authentication required" 401).
Proof.
  intros Hs Ht. split.
  - apply (middleware_header (mkRequest path None)).
    rewrite headerToken_more_words by done.
    symmetry. by apply GateProofs.headerToken_two_words.
  - intros Hchk Hapi. apply GateProofs.middleware_no_token; [done..|].
    cbn [authorization]. by rewrite headerToken_double_space.
Qed.

End WithVerifier.

Section WithPackage.
Context `{P : JwtPackage} `{W : FetchHeaders}.

(** X8. The gate over the [jsonwebtoken] verifier: on a checked protected
    path a header [scheme t] is admitted, with claims [c] forwarded,
    exactly when [t] decodes to [c], its signature verifies under the
    secret in use, the clock is not before its [nbf] and before its
    [exp], for each of the two it carries (as a number), its role is
    ["admin"], and the serialised claims were taken as value of the
    [X-User-Info] header; every other such request is answered 401
    ["Invalid or expired token"]. *)
Theorem X8_gate_admits_iff (env : Env) (now : Z) (path scheme t : string) :
  passesUnchecked path = false → isProtectedApi path = true →
  includesChar scheme " " = false → includesChar t " " = false → t ≠ "" →
  (∀ c,
     middleware (AuthUtils.verifyToken env now)
       (mkRequest path (Some (scheme +:+ " " +:+ t))) = nextWithUserInfo c
     ↔ decode t = Some c
       ∧ signatureOk (AuthUtils.JWT_SECRET env) t = true
       ∧ active now c = true
       ∧ unexpired now c = true
       ∧ role c = JString "admin"
       ∧ ∃ value, setUserInfo c = inr value)
  ∧ ((∀ c, middleware (AuthUtils.verifyToken env now)
             (mkRequest path (Some (scheme +:+ " " +:+ t))) ≠ nextWithUserInfo c) →
     middleware (AuthUtils.verifyToken env now)
       (mkRequest path (Some (scheme +:+ " " +:+ t)))
     = json "Invalid or expired token" 401).
Proof.
  intros Hchk Hapi Hs Ht Hne.
  pose proof (GateProofs.headerToken_two_words scheme t Hs Ht) as Htok.
  rewrite (GateProofs.middleware_token _ _ t); [|done..].
  unfold tryAuthorize.
  destruct (AuthUtils.verifyToken env now t) as [d|e] eqn:Hv.
  - apply TokenProofs.verifyToken_accepts in Hv as (Hd & Hsig & Hact & Hexp).
    destruct (strictEqStr (role d) "admin") eqn:Hr; cbn [negb].
    + apply strictEqStr_true in Hr.
      destruct (setUserInfo d) as [thrown|value] eqn:Hset.
      * split; [|done]. intros c. split; [done|].
        intros (Hc & _ & _ & _ & _ & v & Hv).
        assert (c = d) as -> by congruence. congruence.
      * split.
        -- intros c. split; [intros [= <-]; eauto 10|].
           intros (Hc & _). f_equal. congruence.
        -- intros Hnot. by destruct (Hnot d).
    + split; [|done]. intros c. split; [done|].
      intros (Hc & _ & _ & _ & Hr'%strictEqStr_true & _).
      assert (c = d) as -> by congruence. congruence.
  - split; [|done]. intros c. split; [done|].
    intros (Hd & Hsig & Hact & Hexp & _).
    assert (AuthUtils.verifyToken env now t = Resolved c) as Hc
      by by apply TokenProofs.verifyToken_accepts.
    congruence.
Qed.

End WithPackage.

Import Sample.

(** Witness of X6: an administrator whose name does not fit a header. *)
Lemma X6_witness :
  middleware (AuthUtils.verifyToken (P := samplePackage) ∅ 1000)
    (mkRequest "/api/orders" (Some ("Bearer " +:+ wideToken)))
  = json "Invalid or expired token" 401.
Proof.
  assert (Hne : wideToken ≠ "") by (by vm_compute).
  exact (proj2 (X6_forwards_iff (W := sampleHeaders)
                  (AuthUtils.verifyToken (P := samplePackage) ∅ 1000)
                  (mkRequest "/api/orders" (Some ("Bearer " +:+ wideToken)))
                  wideClaims)
           eq_refl eq_refl wideToken (Error "Cannot convert argument to a ByteString")
           eq_refl Hne eq_refl eq_refl eq_refl).
Defined.

(** Witness of X7: a bearer header with a trailing word, and one with two
    spaces. *)
Lemma X7_witness :
  middleware (AuthUtils.verifyToken (P := samplePackage) ∅ 1000)
    (mkRequest "/api/orders" (Some ("Bearer" +:+ " " +:+ adminToken +:+ " " +:+ "x")))
  = middleware (AuthUtils.verifyToken (P := samplePackage) ∅ 1000)
      (mkRequest "/api/orders" (Some ("Bearer" +:+ " " +:+ adminToken)))
  ∧ middleware (AuthUtils.verifyToken (P := samplePackage) ∅ 1000)
      (mkRequest "/api/orders" (Some ("Bearer" +:+ "  " +:+ adminToken)))
    = json "Authentication required" 401.
Proof.
  destruct (X7_header_segments (AuthUtils.verifyToken (P := samplePackage) ∅ 1000)
              "/api/orders" "Bearer" adminToken "x" eq_refl eq_refl) as [H1 _].
  destruct (X7_header_segments (AuthUtils.verifyToken (P := samplePackage) ∅ 1000)
              "/api/orders" "Bearer" "" adminToken eq_refl eq_refl) as [_ H2].
  split; [exact H1 | exact (H2 eq_refl eq_refl)].
Defined.

(** Witness of X8: the orders API at clock 1000, a bearer header with the
    sample administrator's token, and one with a token that becomes valid
    at 2000 only. *)
Lemma X8_witness :
  (middleware (AuthUtils.verifyToken (P := samplePackage) ∅ 1000)
     (mkRequest "/api/orders" (Some ("Bearer" +:+ " " +:+ adminToken)))
   = nextWithUserInfo adminClaims
   ↔ decode (JwtPackage := samplePackage) adminToken = Some adminClaims
     ∧ signatureOk (JwtPackage := samplePackage) (AuthUtils.JWT_SECRET ∅) adminToken = true
     ∧ active 1000 adminClaims = true
     ∧ unexpired 1000 adminClaims = true
     ∧ role adminClaims = JString "admin"
     ∧ ∃ value, setUserInfo adminClaims = inr value)
  ∧ middleware (AuthUtils.verifyToken (P := samplePackage) ∅ 1000)
      (mkRequest "/api/orders" (Some ("Bearer" +:+ " " +:+ postdatedToken)))
    = json "Invalid or expired token" 401.
Proof.
  assert (Hne : adminToken ≠ "") by (by vm_compute).
  assert (Hne' : postdatedToken ≠ "") by (by vm_compute).
  split.
  - exact (proj1 (X8_gate_admits_iff (P := samplePackage) (W := sampleHeaders)
                    ∅ 1000 "/api/orders" "Bearer"
                    adminToken eq_refl eq_refl eq_refl eq_refl Hne) adminClaims).
  - apply (X8_gate_admits_iff (P := samplePackage) (W := sampleHeaders)
             ∅ 1000 "/api/orders" "Bearer"
             postdatedToken eq_refl eq_refl eq_refl eq_refl Hne').
    intros c. by vm_compute.
Defined.

End GateExtras.

(** ** Login endpoint *)

Module LoginExtras.
Import Js Jwt CryptoUtils Terms Notions JsFacts.

(** The order of document ids is a total preorder. *)
Lemma string_leb_trans (a b c : string) :
  String.leb a b = true → String.leb b c = true → String.leb a c = true.
Proof.
  unfold String.leb. revert b c.
  induction a as [|x a IH]; intros [|y b] [|z c]; cbn; try done.
  unfold Ascii.compare.
  destruct (N.compare_spec (N_of_ascii x) (N_of_ascii y)) as [Hxy|Hxy|Hxy];
    destruct (N.compare_spec (N_of_ascii y) (N_of_ascii z)) as [Hyz|Hyz|Hyz];
    destruct (N.compare_spec (N_of_ascii x) (N_of_ascii z)) as [Hxz|Hxz|Hxz];
    try done; try lia.
  apply IH.
Qed.

#[local] Instance idOrder_total : Total Login.idOrder.
Proof. intros a b. apply String.leb_total. Qed.

#[local] Instance idOrder_transitive : Transitive Login.idOrder.
Proof. intros a b c. apply string_leb_trans. Qed.

Lemma idOrder_refl doc : Login.idOrder doc doc.
Proof. by destruct (idOrder_total doc doc). Qed.

(** The answer of a query holds the matching documents, each as often as
    the collection does. *)
Lemma getDocs_matches users username :
  Login.getDocs users username
  ≡ₚ filter (λ d, Login.doc_username d = username) users.
Proof. apply merge_sort_Permutation. Qed.

Lemma getDocs_elem_of users username doc :
  doc ∈ Login.getDocs users username ↔
  doc ∈ users ∧ Login.doc_username doc = username.
Proof. rewrite getDocs_matches, list_elem_of_filter. naive_solver. Qed.

Lemma getDocs_username users username doc rest :
  Login.getDocs users username = doc :: rest → Login.doc_username doc = username.
Proof.
  intros Heq.
  assert (doc ∈ Login.getDocs users username) as Hin
    by (rewrite Heq; apply list_elem_of_here).
  by apply getDocs_elem_of in Hin as [_ ?].
Qed.

(** A document added to a collection without match under its username is
    the whole answer. *)
Lemma getDocs_first_match users username doc :
  Login.getDocs users username = [] → Login.doc_username doc = username →
  Login.getDocs (users ++ [doc]) username = [doc].
Proof.
  intros Hnone Hname. apply Permutation_singleton_r.
  rewrite getDocs_matches, filter_app, <- (getDocs_matches users), Hnone.
  rewrite filter_cons_True by done. done.
Qed.

Lemma getDocs_app_nonempty users more username doc :
  doc ∈ more → Login.doc_username doc = username →
  Login.getDocs (users ++ more) username ≠ [].
Proof.
  intros Hin Hname Hnone.
  assert (doc ∈ Login.getDocs (users ++ more) username) as Hdoc.
  { apply getDocs_elem_of. split; [|done]. apply elem_of_app. by right. }
  rewrite Hnone in Hdoc. by apply elem_of_nil in Hdoc.
Qed.

(** [docs[0]] is the match whose id comes first. *)
Lemma getDocs_head_least users username doc rest :
  Login.getDocs users username = doc :: rest → leastMatch users username doc.
Proof.
  intros Heq.
  assert (Hin : ∀ d, d ∈ doc :: rest ↔ d ∈ users ∧ Login.doc_username d = username).
  { intros d. rewrite <- Heq. apply getDocs_elem_of. }
  assert (Hsorted : StronglySorted Login.idOrder (doc :: rest)).
  { rewrite <- Heq. apply (StronglySorted_merge_sort _). }
  apply StronglySorted_inv in Hsorted as [_ Hleast].
  destruct (proj1 (Hin doc) (list_elem_of_here _ _)) as [Hdoc Hname].
  split; [done|]. split; [done|].
  apply Forall_forall. intros d Hd Hdname.
  pose proof (proj2 (Hin d) (conj Hd Hdname)) as Hmem.
  apply elem_of_cons in Hmem as [->|Hrest].
  - apply idOrder_refl.
  - by apply (proj1 (Forall_forall _ _) Hleast).
Qed.

Lemma uniqueIds_inj users a b :
  uniqueIds users → a ∈ users → b ∈ users → Login.id a = Login.id b → a = b.
Proof.
  unfold uniqueIds. induction users as [|x users IH]; [by intros _ ?%elem_of_nil|].
  rewrite fmap_cons. intros [Hx Hnd]%NoDup_cons Ha Hb Hid.
  apply elem_of_cons in Ha as [->|Ha], Hb as [->|Hb]; [done| | |by apply IH].
  - destruct Hx. rewrite Hid. by apply list_elem_of_fmap_2.
  - destruct Hx. rewrite <- Hid. by apply list_elem_of_fmap_2.
Qed.

(** With unique ids the least match is the head of the answer. *)
Lemma getDocs_least_head users username doc :
  uniqueIds users → leastMatch users username doc →
  ∃ rest, Login.getDocs users username = doc :: rest.
Proof.
  intros Huniq (Hdoc & Hname & Hleast).
  destruct (Login.getDocs users username) as [|h rest] eqn:Heq.
  { assert (doc ∈ Login.getDocs users username) as Hin by by apply getDocs_elem_of.
    rewrite Heq in Hin. by apply elem_of_nil in Hin. }
  exists rest. f_equal.
  destruct (getDocs_head_least _ _ _ _ Heq) as (Hh & Hhname & Hhleast).
  apply (uniqueIds_inj users); [done..|].
  apply String.leb_antisym.
  - by apply (proj1 (Forall_forall _ _) Hhleast doc).
  - by apply (proj1 (Forall_forall _ _) Hleast h).
Qed.

Section WithPackages.
Context `{C : NodeCrypto} `{P : JwtPackage}.

(** The endpoint once both fields are present and a document is found. *)
Lemma POST_found env now users u p doc rest :
  u ≠ "" → p ≠ "" → Login.getDocs users u = doc :: rest →
  Login.POST env now users (inr (Some u, Some p)) =
    match Login.passwordHash doc with
    | Some h =>
        if String.eqb h "" then
          Login.message_json "Authentication configuration error" 500
        else
          match pbkdf2Verify h p with
          | Rejected error =>
              Login.error_json "Internal server error during login" (message error) 500
          | Resolved false => Login.message_json "Invalid username or password" 401
          | Resolved true =>
              if strictEqStr (Login.doc_role doc) "admin" then
                Login.token_json (sign (Login.secretKey env) (issuedPayload now doc))
              else
                Login.message_json "Access denied. Admin privileges required." 403
          end
    | None => Login.message_json "Authentication configuration error" 500
    end.
Proof.
  intros Hu Hp Hdocs. unfold Login.POST.
  rewrite (proj2 (truthyStr_Some u) Hu), (proj2 (truthyStr_Some p) Hp).
  cbn [negb orb default from_option id]. rewrite Hdocs.
  destruct (Login.passwordHash doc) as [h|]; cbn [truthyStr negb]; [|done].
  destruct (String.eqb h ""); cbn [negb default from_option id]; [done|].
  destruct (pbkdf2Verify h p) as [[]|]; cbn [negb]; [|done..].
  by destruct (strictEqStr _ _).
Qed.

(** Of the answer of the query only its first document is read. *)
Lemma POST_head env now users users' username password doc rest rest' :
  Login.getDocs users (default "" username) = doc :: rest →
  Login.getDocs users' (default "" username) = doc :: rest' →
  Login.POST env now users (inr (username, password))
  = Login.POST env now users' (inr (username, password)).
Proof. intros H H'. unfold Login.POST. by rewrite H, H'. Qed.


(** X10. The endpoint answers with a token exactly when both fields are
    non-empty, the first document found under the username has a
    non-empty stored hash that the password verifies against, and its
    role is the string ["admin"]; the token is then the signature, under
    the secret in use, of that user's id, username and role with
    [iat = now] and [exp = now + 3600]. *)
Theorem X10_token_issued_iff (env : Env) (now : Z) (users : list Login.UserDoc)
    (body : JsError + option string * option string) (tok : string) :
  Login.POST env now users body = Login.token_json tok ↔
  ∃ u p doc rest h,
    body = inr (Some u, Some p) ∧ u ≠ "" ∧ p ≠ ""
    ∧ Login.getDocs users u = doc :: rest
    ∧ Login.passwordHash doc = Some h ∧ h ≠ ""
    ∧ pbkdf2Verify h p = Resolved true
    ∧ Login.doc_role doc = JString "admin"
    ∧ tok = sign (Login.secretKey env) (issuedPayload now doc).
Proof.
  split.
  - destruct body as [e|[u p]]; [done|].
    destruct u as [u|]; [|done].
    destruct p as [p|];
      [|unfold Login.POST; cbn [truthyStr negb]; by rewrite orb_true_r].
    destruct (String.eqb_spec u "") as [->|Hu]; [done|].
    destruct (String.eqb_spec p "") as [->|Hp].
    { unfold Login.POST. rewrite (proj2 (truthyStr_Some u) Hu). done. }
    destruct (Login.getDocs users u) as [|doc rest] eqn:Hdocs.
    { unfold Login.POST.
      rewrite (proj2 (truthyStr_Some u) Hu), (proj2 (truthyStr_Some p) Hp).
      cbn [negb orb default from_option id]. by rewrite Hdocs. }
    rewrite (POST_found _ _ _ _ _ doc rest) by done.
    destruct (Login.passwordHash doc) as [h|] eqn:Hh; [|done].
    destruct (String.eqb_spec h "") as [->|Hne]; [done|].
    destruct (pbkdf2Verify h p) as [[]|] eqn:Hv; [|done..].
    destruct (strictEqStr (Login.doc_role doc) "admin") eqn:Hr; [|done].
    intros [= <-]. apply GateExtras.strictEqStr_true in Hr.
    exists u, p, doc, rest, h. done.
  - intros (u & p & doc & rest & h & -> & Hu & Hp & Hdocs & Hh & Hne & Hv & Hr & ->).
    rewrite (POST_found _ _ _ _ _ doc rest) by done.
    rewrite Hh, Hv, Hr. by destruct (String.eqb_spec h "").
Qed.

(** X11. Of several documents under one username the endpoint consults
    [docs[0]], and Firestore lists the matches by document id: the one
    consulted is the match whose id comes first, whatever the order in
    which the documents were added. So two collections with unique ids
    that agree on this least match are answered alike. *)
Theorem X11_least_id_decides (env : Env) (now : Z)
    (users users' : list Login.UserDoc) (username password : option string)
    (doc : Login.UserDoc) :
  uniqueIds users → uniqueIds users' →
  leastMatch users (default "" username) doc →
  leastMatch users' (default "" username) doc →
  (∃ rest, Login.getDocs users (default "" username) = doc :: rest)
  ∧ Login.POST env now users (inr (username, password))
    = Login.POST env now users' (inr (username, password)).
Proof.
  intros Hu Hu' Hl Hl'.
  destruct (getDocs_least_head _ _ _ Hu Hl) as [rest Hd].
  destruct (getDocs_least_head _ _ _ Hu' Hl') as [rest' Hd'].
  split; [by exists rest | by eapply POST_head].
Qed.

Context `{W : Middleware.FetchHeaders}.

(** X12. A token the endpoint issues at clock [now] opens the gate until
    it expires: provided the package decodes that token to the claims it
    signed and verifies its signature, the token is a non-empty word
    without space, and the serialised claims are taken as value of the
    [X-User-Info] header (the user's id and name hold no character above
    U+00FF), a request on a checked protected path that carries it as
    bearer at any [now' < now + 3600] is forwarded with those claims,
    under the [jsonwebtoken] verifier and, when the user's id is not
    empty, under the part_004 verifier. *)
Theorem X12_issued_token_admitted (env : Env) (now now' : Z)
    (users : list Login.UserDoc) (u p tok path value : string)
    (doc : Login.UserDoc) (rest : list Login.UserDoc) :
  Login.getDocs users u = doc :: rest →
  Login.POST env now users (inr (Some u, Some p)) = Login.token_json tok →
  decode tok = Some (issuedPayload now doc) →
  signatureOk (Login.secretKey env) tok = true →
  includesChar tok " " = false → tok ≠ "" →
  Middleware.setUserInfo (issuedPayload now doc) = inr value →
  now' < now + 3600 →
  Middleware.passesUnchecked path = false → Middleware.isProtectedApi path = true →
  Middleware.middleware (AuthUtils.verifyToken env now')
    (Middleware.mkRequest path (Some ("Bearer" +:+ " " +:+ tok)))
  = Middleware.nextWithUserInfo (issuedPayload now doc)
  ∧ (Login.id doc ≠ "" →
     Middleware.middleware (AuthUtilsJose.verifyToken env now')
       (Middleware.mkRequest path (Some ("Bearer" +:+ " " +:+ tok)))
     = Middleware.nextWithUserInfo (issuedPayload now doc)).
Proof.
  intros Hdocs Hpost Hdec Hsig Hsp Hne Hset Hnow Hchk Hapi.
  assert (Hu : u ≠ "").
  { intros ->. by unfold Login.POST in Hpost. }
  assert (Hp : p ≠ "").
  { intros ->. unfold Login.POST in Hpost. cbn [truthyStr String.eqb negb] in Hpost.
    by rewrite orb_true_r in Hpost. }
  rewrite (POST_found _ _ _ _ _ doc rest) in Hpost by done.
  assert (Hrole : Login.doc_role doc = JString "admin").
  { apply GateExtras.strictEqStr_true.
    destruct (Login.passwordHash doc) as [h|]; [|done].
    destruct (String.eqb h ""); [done|].
    destruct (pbkdf2Verify h p) as [[]|]; [|done..].
    by destruct (strictEqStr _ _). }
  assert (Hname : Login.doc_username doc = u) by by eapply getDocs_username.
  assert (Hexp : unexpired now' (issuedPayload now doc) = true).
  { unfold unexpired, issuedPayload, Login.JWT_EXPIRATION. cbn [exp]. lia. }
  assert (Hjwt : jsonwebtokenOutcome tok (Login.secretKey env) now'
                 = inr (issuedPayload now doc))
    by by apply TokenProofs.jsonwebtokenOutcome_accepts.
  assert (Hjose : joseOutcome tok (Login.secretKey env) now'
                  = inr (issuedPayload now doc))
    by by apply TokenProofs.joseOutcome_accepts.
  assert (Htok : Middleware.headerToken (Some ("Bearer" +:+ " " +:+ tok)) = Some tok)
    by by apply GateProofs.headerToken_two_words.
  assert (Hadmin : strictEqStr (role (issuedPayload now doc)) "admin" = true)
    by by apply GateExtras.strictEqStr_true.
  split; [|intros Hid].
  - rewrite (GateProofs.middleware_token _ _ tok) by done.
    unfold Middleware.tryAuthorize, AuthUtils.verifyToken, jwt_verify.
    change (AuthUtils.JWT_SECRET env) with (Login.secretKey env).
    by rewrite Hjwt, Hadmin, Hset.
  - rewrite (GateProofs.middleware_token _ _ tok) by done.
    unfold Middleware.tryAuthorize, AuthUtilsJose.verifyToken,
      AuthUtilsJose.tryVerify, jwtVerify.
    change (AuthUtilsJose.secretKey env) with (Login.secretKey env).
    rewrite Hjose.
    assert (truthy (userId (issuedPayload now doc)) = true) as ->.
    { cbn. by destruct (String.eqb_spec (Login.id doc) ""). }
    assert (truthy (username (issuedPayload now doc)) = true) as ->.
    { cbn. rewrite Hname. by destruct (String.eqb_spec u ""). }
    assert (truthy (role (issuedPayload now doc)) = true) as ->.
    { cbn. by rewrite Hrole. }
    cbn [negb orb]. by rewrite Hadmin, Hset.
Qed.

End WithPackages.

Import Sample.


(** Witness of X11: a second administrator record with a later id, held
    in front of the seeded one, does not change the answer. *)
Lemma X11_witness :
  Login.POST (C := sampleCrypto) (P := samplePackage) ∅ 1000
    (Login.mkUser "u9" "admin" None JNull :: sampleUsers)
    (inr (Some "admin", Some "password123"))
  = Login.POST (C := sampleCrypto) (P := samplePackage) ∅ 1000 sampleUsers
      (inr (Some "admin", Some "password123")).
Proof.
  refine (proj2 (X11_least_id_decides (C := sampleCrypto) (P := samplePackage) ∅ 1000
                   (Login.mkUser "u9" "admin" None JNull :: sampleUsers) sampleUsers
                   (Some "admin") (Some "password123")
                   (Login.mkUser "u1" "admin"
                      (Some ("00000000000000000000000000000000:"
                             +:+ toHex (repeat x37 64)))
                      (JString "admin")) _ _ _ _)).
  - unfold uniqueIds. cbn. by repeat (constructor; [set_solver|]); constructor.
  - unfold uniqueIds. cbn. by repeat (constructor; [set_solver|]); constructor.
  - split; [set_solver|]. split; [reflexivity|]. by repeat constructor.
  - split; [set_solver|]. split; [reflexivity|]. by repeat constructor.
Defined.

(** Witness of X12: the seeded administrator logs in at clock 1000 and
    calls the orders API at clock 2000. *)
Lemma X12_witness :
  Middleware.middleware (AuthUtils.verifyToken (P := samplePackage) ∅ 2000)
    (Middleware.mkRequest "/api/orders" (Some ("Bearer" +:+ " " +:+ adminToken)))
  = Middleware.nextWithUserInfo adminClaims
  ∧ Middleware.middleware (AuthUtilsJose.verifyToken (P := samplePackage) ∅ 2000)
      (Middleware.mkRequest "/api/orders" (Some ("Bearer" +:+ " " +:+ adminToken)))
    = Middleware.nextWithUserInfo adminClaims.
Proof.
  assert (Hne : adminToken ≠ "") by (by vm_compute).
  assert (Hid : "u1" ≠ "") by done.
  assert (Hpost : Login.POST (C := sampleCrypto) (P := samplePackage) ∅ 1000
                    sampleUsers (inr (Some "admin", Some "password123"))
                  = Login.token_json adminToken) by (vm_compute; reflexivity).
  destruct (X12_issued_token_admitted (C := sampleCrypto) (P := samplePackage)
              (W := sampleHeaders)
              ∅ 1000 2000 sampleUsers "admin" "password123" adminToken "/api/orders"
              "u1,admin,admin"
              (Login.mkUser "u1" "admin"
                 (Some ("00000000000000000000000000000000:" +:+ toHex (repeat x37 64)))
                 (JString "admin")) []
              eq_refl Hpost eq_refl eq_refl eq_refl Hne eq_refl eq_refl eq_refl eq_refl)
    as [H1 H2].
  split; [exact H1 | exact (H2 Hid)].
Defined.

End LoginExtras.

(** ** Seeding endpoint *)

Module SeedExtras.
Import Js Jwt CryptoUtils Terms Notions JsFacts.

Section WithCrypto.
Context {C : NodeCrypto}.

(** Past the guard the answer depends neither on the environment nor on
    the header. *)
Lemma POST_served env env' now autoId users authHeader authHeader' :
  env !! "NODE_ENV" = Some "development"
  ∨ Middleware.headerToken authHeader = Some (Seed.SEED_SECRET env) →
  env' !! "NODE_ENV" = Some "development"
  ∨ Middleware.headerToken authHeader' = Some (Seed.SEED_SECRET env') →
  Seed.POST env now autoId users authHeader
  = Seed.POST env' now autoId users authHeader'.
Proof.
  unfold Seed.POST, Middleware.headerToken. intros H H'.
  assert (∀ e h, e !! "NODE_ENV" = Some "development"
                 ∨ h ≫= (λ s, split " " s !! 1%nat) = Some (Seed.SEED_SECRET e) →
          bool_decide (e !! "NODE_ENV" ≠ Some "development")
          && bool_decide (h ≫= (λ s, split " " s !! 1%nat) ≠ Some (Seed.SEED_SECRET e))
          = false) as Hopen.
  { intros e h [He|Hh].
    - rewrite (bool_decide_eq_false_2 (e !! "NODE_ENV" ≠ Some "development")); [done|].
      by intros Hn.
    - rewrite (bool_decide_eq_false_2 (_ ≠ Some (Seed.SEED_SECRET e))).
      + apply andb_false_r.
      + by intros Hn. }
  by rewrite (Hopen env authHeader H), (Hopen env' authHeader' H').
Qed.

(** Past the guard the collection is left alone unless the answer is
    201. *)
Lemma POST_outcome env now autoId users authHeader :
  let r := Seed.POST env now autoId users authHeader in
  (seedStatus r.1 = 403 ∧ r.2 = users
   ∧ env !! "NODE_ENV" ≠ Some "development"
   ∧ Middleware.headerToken authHeader ≠ Some (Seed.SEED_SECRET env))
  ∨ ((env !! "NODE_ENV" = Some "development"
      ∨ Middleware.headerToken authHeader = Some (Seed.SEED_SECRET env))
     ∧ ((seedStatus r.1 = 200 ∧ r.2 = users ∧ Login.getDocs users "admin" ≠ [])
        ∨ (seedStatus r.1 = 500 ∧ r.2 = users)
        ∨ (seedStatus r.1 = 201 ∧ Login.getDocs users "admin" = []
           ∧ ∃ h, pbkdf2Hash "password123" = Resolved h
                  ∧ r.2 = users ++ [Login.mkUser autoId "admin" (Some h)
                                      (JString "admin")]))).
Proof.
  unfold Seed.POST, Middleware.headerToken. cbn zeta.
  assert (served :
    let r := match Login.getDocs users "admin" with
             | [] =>
                 match pbkdf2Hash "password123" with
                 | Resolved passwordHash =>
                     (Seed.message_json "Admin user 'admin' seeded successfully." 201,
                      Seed.addDoc autoId users
                        (Seed.mkNewUser "admin" passwordHash "admin" now))
                 | Rejected error =>
                     (Seed.error_json "Internal server error during seeding"
                        (message error) 500, users)
                 end
             | _ :: _ => (Seed.message_json "Admin user already exists." 200, users)
             end in
    (seedStatus r.1 = 200 ∧ r.2 = users ∧ Login.getDocs users "admin" ≠ [])
    ∨ (seedStatus r.1 = 500 ∧ r.2 = users)
    ∨ (seedStatus r.1 = 201 ∧ Login.getDocs users "admin" = []
       ∧ ∃ h, pbkdf2Hash "password123" = Resolved h
              ∧ r.2 = users ++ [Login.mkUser autoId "admin" (Some h)
                                  (JString "admin")])).
  { cbn zeta. destruct (Login.getDocs users "admin") eqn:Hd.
    - destruct (pbkdf2Hash "password123") as [h|e].
      + right; right. cbn. eauto.
      + right; left. by cbn.
    - left. by cbn. }
  cbn zeta in served.
  case_bool_decide as Henv; cbn [andb].
  - case_bool_decide as Hsec.
    + left. by cbn.
    + right. split; [right; first [done | by apply dec_stable] | exact served].
  - right. split; [left; first [done | by apply dec_stable] | exact served].
Qed.

(** X13. The seeding endpoint answers 403 exactly when [NODE_ENV] is not
    ["development"] and the second segment of the [Authorization] header
    is not the seeding secret; and whenever its answer is not 201 the
    [users] collection is left as it was. *)
Theorem X13_seed_guard (env : Env) (now : Z) (autoId : string)
    (users : list Login.UserDoc) (authHeader : option string) :
  (seedStatus (Seed.POST env now autoId users authHeader).1 = 403 ↔
     env !! "NODE_ENV" ≠ Some "development"
     ∧ Middleware.headerToken authHeader ≠ Some (Seed.SEED_SECRET env))
  ∧ (seedStatus (Seed.POST env now autoId users authHeader).1 = 201
     ∨ (Seed.POST env now autoId users authHeader).2 = users).
Proof.
  pose proof (POST_outcome env now autoId users authHeader) as H. cbn zeta in H.
  destruct H as [(H403 & Hu & Henv & Hsec)
                |[Hopen [(H200 & Hu & _)|[(H500 & Hu)|(H201 & _)]]]].
  - split; [done | by right].
  - split; [|by right]. rewrite H200. split; [done|]. intros [? ?]. naive_solver.
  - split; [|by right]. rewrite H500. split; [done|]. intros [? ?]. naive_solver.
  - split; [|by left]. rewrite H201. split; [done|]. intros [? ?]. naive_solver.
Qed.

(** X14. In development the header is not looked at: every request is
    served as if it carried none, and none is answered 403. *)
Theorem X14_development_is_open (env : Env) (now : Z) (autoId : string)
    (users : list Login.UserDoc) (authHeader : option string) :
  env !! "NODE_ENV" = Some "development" →
  Seed.POST env now autoId users authHeader = Seed.POST env now autoId users None
  ∧ seedStatus (Seed.POST env now autoId users authHeader).1 ≠ 403.
Proof.
  intros Hdev. split; [apply POST_served; by left|].
  pose proof (POST_outcome env now autoId users authHeader) as H. cbn zeta in H.
  destruct H as [(_ & _ & Henv & _)|[_ [(-> & _)|[(-> & _)|(-> & _)]]]]; done.
Qed.

(** X15. When [SEED_SECRET] is missing from the environment, or empty,
    the fixed secret ["development-only-secret"] opens the endpoint
    outside development as well: a header carrying it as second segment is
    served exactly as a request in development. *)
Theorem X15_default_seed_secret (env : Env) (now : Z) (autoId scheme : string)
    (users : list Login.UserDoc) :
  env !! "SEED_SECRET" = None ∨ env !! "SEED_SECRET" = Some "" →
  includesChar scheme " " = false →
  Seed.POST env now autoId users (Some (scheme +:+ " " +:+ "development-only-secret"))
  = Seed.POST {["NODE_ENV" := "development"]} now autoId users None.
Proof.
  intros Hmiss Hs. apply POST_served; [right | left; done].
  rewrite GateProofs.headerToken_two_words by done.
  unfold Seed.SEED_SECRET. by rewrite (orElse_missing _ _ Hmiss).
Qed.

(** X16. Seeding happens once: after an answer of 201 the collection
    holds an ["admin"] document, and no later request to the endpoint,
    whatever its environment, time, header or proposed id, changes the
    collection again or is answered 201. *)
Theorem X16_seeds_once (env env' : Env) (now now' : Z) (autoId autoId' : string)
    (users : list Login.UserDoc) (authHeader authHeader' : option string) :
  seedStatus (Seed.POST env now autoId users authHeader).1 = 201 →
  (Seed.POST env' now' autoId' (Seed.POST env now autoId users authHeader).2
     authHeader').2
  = (Seed.POST env now autoId users authHeader).2
  ∧ seedStatus (Seed.POST env' now' autoId'
                  (Seed.POST env now autoId users authHeader).2 authHeader').1 ≠ 201.
Proof.
  intros H201.
  pose proof (POST_outcome env now autoId users authHeader) as H. cbn zeta in H.
  destruct H as [(H403 & _)|[_ [(H200 & _)|[(H500 & _)|(_ & Hnone & h & _ & Hst)]]]];
    [congruence..|].
  rewrite Hst.
  pose proof (POST_outcome env' now' autoId'
                (users ++ [Login.mkUser autoId "admin" (Some h) (JString "admin")])
                authHeader') as H'. cbn zeta in H'.
  destruct H' as [(H403 & Hu & _)|[_ [(H200 & Hu & _)|[(H500 & Hu)|(_ & Hnone' & _)]]]].
  - rewrite H403, Hu. done.
  - rewrite H200, Hu. done.
  - rewrite H500, Hu. done.
  - exfalso. revert Hnone'.
    apply (LoginExtras.getDocs_app_nonempty _ _ _
             (Login.mkUser autoId "admin" (Some h) (JString "admin")));
      [apply list_elem_of_here | done].
Qed.

Context {S : NodeCryptoSpec C} `{P : JwtPackage}.

(** X17. Seeding makes the default credentials work: after an answer of
    201 the collection is the old one followed by one document with the
    proposed id, username and role ["admin"], and the login endpoint, in
    any environment and at any time, answers the pair [admin] /
    [password123] with a token signed for that document. *)
Theorem X17_seed_then_login (env env' : Env) (now now' : Z) (autoId : string)
    (users : list Login.UserDoc) (authHeader : option string) :
  seedStatus (Seed.POST env now autoId users authHeader).1 = 201 →
  ∃ doc,
    (Seed.POST env now autoId users authHeader).2 = users ++ [doc]
    ∧ Login.id doc = autoId
    ∧ Login.doc_username doc = "admin"
    ∧ Login.doc_role doc = JString "admin"
    ∧ Login.POST env' now' (Seed.POST env now autoId users authHeader).2
        (inr (Some "admin", Some "password123"))
      = Login.token_json (sign (Login.secretKey env') (issuedPayload now' doc)).
Proof.
  intros H201.
  pose proof (POST_outcome env now autoId users authHeader) as H. cbn zeta in H.
  destruct H as [(H403 & _)|[_ [(H200 & _)|[(H500 & _)|(_ & Hnone & h & Hh & Hst)]]]];
    [congruence..|].
  rewrite Hst. eexists. split; [done|]. do 3 (split; [done|]).
  apply HasherExtras.pbkdf2Hash_parts in Hh as (bytes & key & Hb & Hk & Hkey & ->).
  rewrite (LoginExtras.POST_found _ _ _ _ _
             (Login.mkUser autoId "admin"
                (Some (toHex bytes +:+ ":" +:+ toHex key)) (JString "admin")) []);
    [|done..|by apply LoginExtras.getDocs_first_match].
  cbn [Login.passwordHash Login.doc_role strictEqStr].
  assert (toHex bytes ≠ "") as Hsalt.
  { apply HasherFacts.toHex_nonempty, (HasherFacts.nonempty_of_length _ 15). done. }
  rewrite (HasherProofs.pbkdf2Verify_any_salt _ _ key);
    [|done|apply HasherFacts.toHex_no_colon|done].
  destruct (String.eqb_spec (toHex bytes +:+ ":" +:+ toHex key) "") as [Heq|_]; [|done].
  destruct (toHex bytes); done.
Qed.

End WithCrypto.

Import Sample.

(** Witness of X14: a development environment and an empty collection. *)
Lemma X14_witness :
  Seed.POST (C := sampleCrypto) {["NODE_ENV" := "development"]} 1000 "u1" []
    (Some "Bearer wrong")
  = Seed.POST (C := sampleCrypto) {["NODE_ENV" := "development"]} 1000 "u1" [] None
  ∧ seedStatus (Seed.POST (C := sampleCrypto) {["NODE_ENV" := "development"]}
                  1000 "u1" [] (Some "Bearer wrong")).1 ≠ 403.
Proof.
  apply (X14_development_is_open (C := sampleCrypto)). reflexivity.
Defined.

(** Witness of X15: a production environment that sets no secret. *)
Lemma X15_witness :
  Seed.POST (C := sampleCrypto) {["NODE_ENV" := "production"]} 1000 "u1" []
    (Some ("Bearer" +:+ " " +:+ "development-only-secret"))
  = Seed.POST (C := sampleCrypto) {["NODE_ENV" := "development"]} 1000 "u1" [] None.
Proof.
  apply (X15_default_seed_secret (C := sampleCrypto)); [left|]; reflexivity.
Defined.

(** Witness of X16: seeding the empty collection in development, then
    asking again in production with the default secret. *)
Lemma X16_witness :
  (Seed.POST (C := sampleCrypto) {["NODE_ENV" := "production"]} 2000 "u2"
     (Seed.POST (C := sampleCrypto) {["NODE_ENV" := "development"]} 1000 "u1" [] None).2
     (Some "Bearer development-only-secret")).2
  = (Seed.POST (C := sampleCrypto) {["NODE_ENV" := "development"]} 1000 "u1" [] None).2
  ∧ seedStatus
      (Seed.POST (C := sampleCrypto) {["NODE_ENV" := "production"]} 2000 "u2"
         (Seed.POST (C := sampleCrypto) {["NODE_ENV" := "development"]}
            1000 "u1" [] None).2
         (Some "Bearer development-only-secret")).1 ≠ 201.
Proof.
  apply (X16_seeds_once (C := sampleCrypto)). reflexivity.
Defined.

(** Witness of X17: seeding the empty collection yields the sample store,
    whose administrator then logs in. *)
Lemma X17_witness :
  ∃ doc,
    (Seed.POST (C := sampleCrypto) {["NODE_ENV" := "development"]} 1000 "u1" [] None).2
    = [] ++ [doc]
    ∧ Login.id doc = "u1"
    ∧ Login.doc_username doc = "admin"
    ∧ Login.doc_role doc = JString "admin"
    ∧ Login.POST (C := sampleCrypto) (P := samplePackage) ∅ 1000
        (Seed.POST (C := sampleCrypto) {["NODE_ENV" := "development"]}
           1000 "u1" [] None).2
        (inr (Some "admin", Some "password123"))
      = Login.token_json
          (sign (JwtPackage := samplePackage) (Login.secretKey ∅) (issuedPayload 1000 doc)).
Proof.
  apply (X17_seed_then_login (C := sampleCrypto) (S := HasherFacts.sampleCryptoSpec)
           (P := samplePackage)).
  reflexivity.
Defined.

End SeedExtras.

(** ** Session controller and admin layout *)

Module SessionExtras.
Import Js AuthContext Notions.

Lemma includes_login p : includes ["/login"] p = String.eqb p "/login".
Proof. unfold includes. cbn. apply orb_false_r. Qed.

(** The navigation policy in closed form. *)
Lemma navigationEffect_loaded t p :
  navigationEffect (mkRender t false p) =
    if truthyStr t then (if String.eqb p "/login" then [Push "/dashboard"] else [])
    else (if String.eqb p "/login" then [] else [Push "/login"]).
Proof.
  unfold navigationEffect. cbn [isLoading negb token pathname].
  rewrite includes_login. by destruct (truthyStr t), (String.eqb p "/login").
Qed.

Lemma since_app w w' effects : trace w' = trace w ++ effects → since w w' = effects.
Proof. unfold since. intros ->. apply drop_app_length. Qed.

Lemma mount_rendered route ls :
  rendered (mount (initial route ls))
  = mkRender (if truthyStr (ls !! "adminToken") then ls !! "adminToken" else None)
             false route.
Proof.
  unfold mount, initial, startupEffect. cbn [rendered localStorage].
  by destruct (truthyStr (ls !! "adminToken")).
Qed.

(** X18. Startup: mounting the provider reads the stored token once and
    writes nothing; the session is authenticated exactly when the slot
    holds a non-empty token, which then is the in-memory token; loading is
    over; and the navigation policy is applied once, to the restored
    state. *)
Theorem X18_startup (route : string) (ls : gmap string string) :
  localStorage (mount (initial route ls)) = ls
  ∧ isLoading (rendered (mount (initial route ls))) = false
  ∧ token (rendered (mount (initial route ls)))
    = (if truthyStr (ls !! "adminToken") then ls !! "adminToken" else None)
  ∧ isAuthenticated (mount (initial route ls)) = truthyStr (ls !! "adminToken")
  ∧ trace (mount (initial route ls))
    = GetItem "adminToken" :: navigationEffect (rendered (mount (initial route ls))).
Proof.
  split; [done|]. rewrite mount_rendered. split; [done|]. split; [done|]. split.
  - unfold isAuthenticated. rewrite mount_rendered. cbn [token].
    by destruct (truthyStr (ls !! "adminToken")) eqn:Ht.
  - unfold mount, initial, startupEffect. cbn [rendered localStorage trace].
    destruct (truthyStr (ls !! "adminToken"));
      cbn [app applyUpdates fold_left applyUpdate token isLoading pathname
           navigationEffect negb];
      unfold commit; by rewrite bool_decide_eq_false_2.
Qed.

Lemma mount_agrees route ls : inAgreement (mount (initial route ls)).
Proof.
  unfold inAgreement, isAuthenticated. rewrite mount_rendered. cbn [token].
  change (localStorage (mount (initial route ls))) with ls.
  destruct (truthyStr (ls !! "adminToken")) eqn:Ht; by rewrite ?Ht.
Qed.

Lemma setToken_agrees v w : inAgreement (setToken v w).
Proof.
  unfold inAgreement, isAuthenticated.
  rewrite SessionProofs.setToken_rendered, SessionProofs.setToken_localStorage.
  cbn [token]. destruct (truthyStr v) eqn:Hv.
  - rewrite lookup_insert_eq. destruct v as [s|]; [|done]. cbn [default from_option id].
    by rewrite Hv.
  - by rewrite lookup_delete_eq.
Qed.

Lemma logout_rendered w :
  rendered (logout w) = mkRender None false (pathname (rendered w)).
Proof. done. Qed.

Lemma logout_localStorage w :
  localStorage (logout w) = delete "adminToken" (localStorage w).
Proof. done. Qed.

Lemma logout_agrees w : inAgreement (logout w).
Proof.
  unfold inAgreement, isAuthenticated.
  rewrite logout_rendered, logout_localStorage. cbn [token truthyStr].
  by rewrite lookup_delete_eq.
Qed.

Lemma consistent_dispatch e w w' :
  dispatch e w = Some w' → consistent w → consistent w'.
Proof.
  unfold consistent. destruct e as [|v| |p]; cbn [dispatch];
    destruct (mounted w) eqn:Hm; try done; intros [= <-].
  - intros (route & ls & ->). apply mount_agrees.
  - intros _. replace (mounted (setToken v w)) with true
      by (unfold setToken, setTokenBody; by destruct (truthyStr v)).
    apply setToken_agrees.
  - intros _. change (mounted (logout w)) with (mounted w). rewrite Hm.
    apply logout_agrees.
  - change (mounted (routeChange p w)) with (mounted w). by rewrite Hm.
Qed.

Lemma consistent_run es : ∀ w w', run es w = Some w' → consistent w → consistent w'.
Proof.
  induction es as [|e es IH]; cbn [run]; intros w w'.
  - by intros [= <-].
  - destruct (dispatch e w) as [w1|] eqn:Hd; [|done].
    intros Hrun Hw. eapply IH; [done|]. by eapply consistent_dispatch.
Qed.

Lemma reachable_consistent w : reachable w → consistent w.
Proof.
  intros (route & ls & es & Hrun).
  eapply consistent_run; [done|]. unfold consistent. cbn. eauto.
Qed.

(** X19. Once mounted, the provider keeps the stored slot and the
    in-memory token in step through every [setToken], [logout] and route
    change: the session is authenticated exactly when the slot holds a
    non-empty token, and then the two are the same token. *)
Theorem X19_slot_and_token_agree (w : World) :
  reachable w → mounted w = true →
  isAuthenticated w = truthyStr (localStorage w !! "adminToken")
  ∧ (isAuthenticated w = true → localStorage w !! "adminToken" = token (rendered w)).
Proof.
  intros Hr%reachable_consistent Hm. unfold consistent in Hr. by rewrite Hm in Hr.
Qed.

(** X20. A session survives a reload and so does a logout: a provider
    mounted afresh over the storage that [setToken v] left holds [v] when
    [v] is a non-empty token and no token otherwise, and over the storage
    that [logout] left it holds none. *)
Theorem X20_reload (v : option string) (w : World) (route : string) :
  token (rendered (mount (initial route (localStorage (setToken v w)))))
  = (if truthyStr v then v else None)
  ∧ token (rendered (mount (initial route (localStorage (logout w))))) = None.
Proof.
  rewrite !mount_rendered. cbn [token].
  rewrite SessionProofs.setToken_localStorage, logout_localStorage. split.
  - destruct (truthyStr v) eqn:Hv.
    + rewrite lookup_insert_eq. destruct v as [s|]; [|done].
      cbn [default from_option id]. by rewrite Hv.
    + by rewrite lookup_delete_eq.
  - by rewrite lookup_delete_eq.
Qed.

(** X21. The navigation policy never loops: once the router has moved to
    the route the policy pushed, the policy asks for nothing more. *)
Theorem X21_redirect_settles (w : World) (route : string) :
  Push route ∈ navigationEffect (rendered w) →
  since w (routeChange route w) = [].
Proof.
  intros Hin. rewrite (since_app w _ (commit (rendered w)
    (mkRender (token (rendered w)) (isLoading (rendered w)) route))) by done.
  unfold commit. case_bool_decide; [done|].
  destruct (rendered w) as [t l p]. cbn [token isLoading] in *.
  destruct l; [by rewrite SessionProofs.navigationEffect_loading in Hin|].
  rewrite navigationEffect_loaded in *.
  destruct (truthyStr t), (String.eqb p "/login");
    repeat match goal with
    | H : _ ∈ [] |- _ => by apply not_elem_of_nil in H
    | H : _ ∈ [_] |- _ => apply list_elem_of_singleton in H; injection H as ->
    end; done.
Qed.

(** X22. [logout] always ends without token, loading over and the slot
    erased; it calls [removeItem] once and then pushes ["/login"] and
    nothing else, between one and three times: three times when it starts
    from an authenticated session off the login route. *)
Theorem X22_logout (w : World) :
  token (rendered (logout w)) = None
  ∧ isLoading (rendered (logout w)) = false
  ∧ localStorage (logout w) !! "adminToken" = None
  ∧ ∃ n, (1 ≤ n ≤ 3)%nat
         ∧ since w (logout w) = RemoveItem "adminToken" :: repeat (Push "/login") n
         ∧ (isAuthenticated w = true →
            String.eqb (pathname (rendered w)) "/login" = false → n = 3%nat).
Proof.
  split; [done|]. split; [done|].
  split; [rewrite logout_localStorage; apply lookup_delete_eq|].
  unfold isAuthenticated.
  rewrite (since_app w _
    ([RemoveItem "adminToken"]
     ++ (if negb (String.eqb (pathname (rendered w)) "/login") then [Push "/login"] else [])
     ++ [Push "/login"]
     ++ commit (rendered w) (mkRender None false (pathname (rendered w))))).
  2: { unfold logout, setTokenBody.
       cbn [truthyStr negb andb trace applyUpdates fold_left applyUpdate
            token isLoading pathname].
       by rewrite <- !(assoc app). }
  unfold commit. rewrite navigationEffect_loaded. cbn [truthyStr].
  destruct (rendered w) as [t l p]. cbn [token pathname].
  case_bool_decide as Hsame; destruct (String.eqb p "/login") eqn:Hp; cbn [negb app].
  - exists 1%nat. split; [lia|]. split; [reflexivity|]. by intros _ [=].
  - exists 2%nat. split; [lia|]. split; [reflexivity|].
    injection Hsame as -> ->. by intros [=].
  - exists 1%nat. split; [lia|]. split; [reflexivity|]. by intros _ [=].
  - exists 3%nat. split; [lia|]. split; [reflexivity|]. done.
Qed.

(** X23. The admin layout shows its shell, and with it the protected
    pages, only once the provider is mounted and the stored slot holds a
    non-empty token; it shows the spinner exactly until the mount; and it
    pushes ["/login"] exactly when the provider is mounted over a slot
    without token. *)
Theorem X23_layout (w : World) :
  reachable w →
  (AdminLayout.render w = AdminLayout.Shell ↔
     mounted w = true ∧ truthyStr (localStorage w !! "adminToken") = true)
  ∧ (AdminLayout.render w = AdminLayout.Spinner ↔ mounted w = false)
  ∧ (AdminLayout.redirectEffect w = [Push "/login"] ↔
     mounted w = true ∧ truthyStr (localStorage w !! "adminToken") = false).
Proof.
  intros Hr. pose proof (SessionProofs.reachable_settled w Hr) as Hs.
  pose proof (reachable_consistent w Hr) as Hc.
  unfold settled in Hs. unfold consistent, inAgreement in Hc.
  unfold AdminLayout.render, AdminLayout.redirectEffect,
    AdminLayout.isLoading, AdminLayout.isAuthenticated.
  destruct (mounted w).
  - destruct Hs as [-> _]. destruct Hc as [-> _]. cbn [negb andb].
    destruct (truthyStr _); naive_solver.
  - destruct Hs as [-> _]. naive_solver.
Qed.

(** Witness of X19: the provider mounted on the login route over a stored
    token. *)
Lemma X19_witness :
  isAuthenticated Sample.restored
  = truthyStr (localStorage Sample.restored !! "adminToken")
  ∧ (isAuthenticated Sample.restored = true →
     localStorage Sample.restored !! "adminToken" = token (rendered Sample.restored)).
Proof.
  apply (X19_slot_and_token_agree Sample.restored); [|reflexivity].
  exists "/login", {["adminToken" := "abc"]}, [Mount]. reflexivity.
Defined.

(** Witness of X21: the same provider, sent to the dashboard, follows. *)
Lemma X21_witness : since Sample.restored (routeChange "/dashboard" Sample.restored) = [].
Proof.
  apply (X21_redirect_settles Sample.restored "/dashboard").
  vm_compute. apply list_elem_of_here.
Defined.

(** Witness of X23: the same provider. *)
Lemma X23_witness :
  (AdminLayout.render Sample.restored = AdminLayout.Shell ↔
     mounted Sample.restored = true
     ∧ truthyStr (localStorage Sample.restored !! "adminToken") = true)
  ∧ (AdminLayout.render Sample.restored = AdminLayout.Spinner ↔
     mounted Sample.restored = false)
  ∧ (AdminLayout.redirectEffect Sample.restored = [Push "/login"] ↔
     mounted Sample.restored = true
     ∧ truthyStr (localStorage Sample.restored !! "adminToken") = false).
Proof.
  apply (X23_layout Sample.restored).
  exists "/login", {["adminToken" := "abc"]}, [Mount]. reflexivity.
Defined.

End SessionExtras.
